(** * django-sqlserver: the SQL Server backend glue of [sqlserver/base.py]

    A shallow embedding of the module [sqlserver.base]: transport selection
    at import time, the pytds connection-parameter builder, the timezone
    factory, connection initialisation with its version probe and feature
    refinement, the usability check and the cursor wrapper.

    Python objects are modelled as the code uses them: dictionaries as
    [gmap string value], attribute stores as maps from attribute name to
    value, exceptions as values of a class with its chain of base classes,
    and methods of [DatabaseWrapper] as computations over the wrapper's
    state that either return or raise. *)

From stdpp Require Import gmap strings list fin_maps pretty.
From Stdlib Require Import ZArith Ascii String.

Set Default Proof Using "Type".
#[local] Set Warnings "-register-all,-clear-no-such-hyp".
#[local] Open Scope Z_scope.

(** ** Python values, exceptions and outcomes *)

Module Py.

(** The values that flow through this module.  [VObj] is an opaque
    object known by name only: the [utc] tzinfo singleton, a function
    or a class used as a value. *)
Inductive value : Type :=
| VNone
| VBool (b : bool)
| VInt (z : Z)
| VStr (s : string)
| VObj (name : string)
| VDict (d : gmap string value).

(** Truth value testing, as [if v:] does it. *)
Definition truthy (v : value) : bool :=
  match v with
  | VNone => false
  | VBool b => b
  | VInt z => negb (z =? 0)
  | VStr s => negb (String.eqb s "")
  | VObj _ => true
  | VDict d => negb (bool_decide (d = ∅))
  end.

(** Exception classes: the builtin ones this module meets and classes
    defined elsewhere, each with its direct base. *)
Inductive exn_class : Type :=
| BaseException
| Exception
| AssertionError
| AttributeError
| ImportError
| LookupError
| IndexError
| KeyError
| ValueError
| Warning
| DeprecationWarning
| Custom (name : string) (base : exn_class).

#[global] Instance exn_class_eq_dec : EqDecision exn_class.
Proof. solve_decision. Defined.

(** The proper ancestors of a class, nearest first. *)
Fixpoint bases (c : exn_class) : list exn_class :=
  match c with
  | BaseException => []
  | Exception => [BaseException]
  | AssertionError | AttributeError | ImportError | LookupError
  | ValueError | Warning => [Exception; BaseException]
  | IndexError | KeyError => [LookupError; Exception; BaseException]
  | DeprecationWarning => [Warning; Exception; BaseException]
  | Custom _ b => b :: bases b
  end.

Definition issubclass (c d : exn_class) : bool :=
  bool_decide (c = d) || bool_decide (d ∈ bases c).

Record exn : Type := mk_exn { exn_cls : exn_class; exn_arg : string }.

#[global] Instance exn_eq_dec : EqDecision exn.
Proof. solve_decision. Defined.

Definition isinstance (e : exn) (c : exn_class) : bool :=
  issubclass (exn_cls e) c.

(** What evaluating an expression or running a statement ends in. *)
Inductive outcome (A : Type) : Type :=
| Ok (a : A)
| Raise (e : exn).
Arguments Ok {A} a.
Arguments Raise {A} e.

Definition returns {A} (o : outcome A) : bool :=
  match o with Ok _ => true | Raise _ => false end.

(** A method body: a computation over a state [S].  Mutations made
    before an exception is raised stay made. *)
Definition M (S A : Type) : Type := S → outcome A * S.

Definition ret {S A} (a : A) : M S A := λ s, (Ok a, s).
Definition raise {S A} (e : exn) : M S A := λ s, (Raise e, s).
Definition bind {S A B} (m : M S A) (k : A → M S B) : M S B :=
  λ s, match m s with
       | (Ok a, s') => k a s'
       | (Raise e, s') => (Raise e, s')
       end.
Definition gets {S A} (f : S → A) : M S A := λ s, (Ok (f s), s).
Definition modify {S} (f : S → S) : M S unit := λ s, (Ok tt, f s).
Definition lift {S A} (o : outcome A) : M S A := λ s, (o, s).

(** [try: body / except (classes): handler / else: orelse]; an empty
    list of classes is not used, the bare [except:] is [try_except_all]. *)
Definition try_except_else {S A B} (body : M S A) (classes : list exn_class)
    (handler : exn → M S B) (orelse : A → M S B) : M S B :=
  λ s, match body s with
       | (Ok a, s') => orelse a s'
       | (Raise e, s') =>
           if existsb (isinstance e) classes then handler e s'
           else (Raise e, s')
       end.

Definition try_except_all {S A B} (body : M S A)
    (handler : exn → M S B) (orelse : A → M S B) : M S B :=
  λ s, match body s with
       | (Ok a, s') => orelse a s'
       | (Raise e, s') => handler e s'
       end.

(** [d[k]] and [d.get(k, default)] on a dictionary. *)
Definition subscript {S} (d : gmap string value) (k : string) : M S value :=
  match d !! k with
  | Some v => ret v
  | None => raise (mk_exn KeyError k)
  end.

Definition dict_get (d : gmap string value) (k : string) (default : value)
    : value :=
  match d !! k with Some v => v | None => default end.

(** A dictionary display, a class body or [dict(pairs)]: later
    bindings win. *)
Definition dict_of (l : list (string * value)) : gmap string value :=
  foldl (λ d kv, <[kv.1 := kv.2]> d) ∅ l.

(** [v.get]: only a dictionary has the method. *)
Definition as_dict {S} (v : value) : M S (gmap string value) :=
  match v with
  | VDict d => ret d
  | _ => raise (mk_exn AttributeError "get")
  end.

(** [s.split(sep, maxsplit)] for a one-character separator. *)
Fixpoint split_go (sep : ascii) (maxsplit : nat) (acc : string) (s : string)
    : list string :=
  match s with
  | EmptyString => [String.rev acc]
  | String c s' =>
      match maxsplit with
      | O => [String.rev acc +:+ s]
      | S n =>
          if Ascii.eqb c sep
          then String.rev acc :: split_go sep n "" s'
          else split_go sep maxsplit (String c acc) s'
      end
  end.

Definition split (sep : ascii) (maxsplit : nat) (s : string) : list string :=
  split_go sep maxsplit "" s.

(** [l[i]] on a list of strings. *)
Definition index {S} (l : list string) (i : nat) : M S string :=
  match l !! i with
  | Some x => ret x
  | None => raise (mk_exn IndexError "list index out of range")
  end.

(** [int(s)] on plain ASCII input: surrounding blanks, an optional sign
    and decimal digits.  Python's [int] accepts more spellings (digit
    separators, other scripts), so the backend takes its parser as a
    parameter and this one serves where a concrete parser is run. *)
Definition digit_of (c : ascii) : option Z :=
  let n := Z.of_nat (nat_of_ascii c) in
  if (48 <=? n) && (n <=? 57) then Some (n - 48) else None.

Fixpoint digits_go (acc : Z) (s : string) : option Z :=
  match s with
  | EmptyString => Some acc
  | String c s' =>
      match digit_of c with
      | Some d => digits_go (10 * acc + d) s'
      | None => None
      end
  end.

Definition is_blank (c : ascii) : bool :=
  let n := nat_of_ascii c in
  (Nat.eqb n 32) || ((Nat.leb 9 n) && (Nat.leb n 13)).

Fixpoint lstrip (s : string) : string :=
  match s with
  | String c s' => if is_blank c then lstrip s' else s
  | EmptyString => EmptyString
  end.

Definition strip (s : string) : string :=
  String.rev (lstrip (String.rev (lstrip s))).

Definition unsigned_int (s : string) : option Z :=
  match s with
  | EmptyString => None
  | _ => digits_go 0 s
  end.

Definition ascii_int (s : string) : option Z :=
  match strip s with
  | String "-" s' => Z.opp <$> unsigned_int s'
  | String "+" s' => unsigned_int s'
  | s' => unsigned_int s'
  end.

End Py.

Import Py.

Declare Scope py_scope.
Delimit Scope py_scope with py.
Notation "'let*' x ':=' m 'in' k" := (Py.bind m (λ x, k))
  (at level 10, x name, m at level 100, k at level 200) : py_scope.
#[local] Open Scope py_scope.

(** ** Transport selection at import time (lines 15-31) *)

Module Transport.

(** The two driver modules the backend can sit on. *)
Inductive module_ref : Type := Pytds | AdoDbapi.

#[global] Instance module_ref_eq_dec : EqDecision module_ref.
Proof. solve_decision. Defined.

(** Which optional imports succeed in the running interpreter. *)
Record environment : Type := {
  has_ado_dbapi : bool;   (* from sqlserver_ado import dbapi *)
  has_pythoncom : bool;   (* import pythoncom *)
  has_pytds : bool        (* import pytds *)
}.

(** The module globals the import-time code binds. *)
Record globals : Type := {
  ado_dbapi : option module_ref;
  pytds : option module_ref;
  Database : option module_ref
}.

Definition unbound : globals :=
  {| ado_dbapi := None; pytds := None; Database := None |}.

Definition import {A} (available : bool) (m : A) : M globals A :=
  if available then ret m else raise (mk_exn ImportError "No module").

Definition no_transport_message : string :=
  "Both ado and pytds are not available, to install pytds run pip install python-tds".

Definition set_ado_dbapi (v : option module_ref) (g : globals) : globals :=
  {| ado_dbapi := v; pytds := pytds g; Database := Database g |}.
Definition set_pytds (v : option module_ref) (g : globals) : globals :=
  {| ado_dbapi := ado_dbapi g; pytds := v; Database := Database g |}.
Definition set_Database (v : option module_ref) (g : globals) : globals :=
  {| ado_dbapi := ado_dbapi g; pytds := pytds g; Database := v |}.

(** Lines 15-31, statement by statement. *)
Definition module_init (env : environment) : M globals unit :=
  let* _ :=
    try_except_else
      (let* m := import (has_ado_dbapi env) AdoDbapi in
       let* _ := modify (set_ado_dbapi (Some m)) in
       import (has_pythoncom env) tt)
      [ImportError]
      (λ _, modify (set_ado_dbapi None))
      ret in
  let* _ :=
    try_except_else
      (let* m := import (has_pytds env) Pytds in
       modify (set_pytds (Some m)))
      [ImportError]
      (λ _, modify (set_pytds None))
      ret in
  let* g := gets id in
  match pytds g with
  | Some m => modify (set_Database (Some m))
  | None =>
      match ado_dbapi g with
      | Some m => modify (set_Database (Some m))
      | None => raise (mk_exn Exception no_transport_message)
      end
  end.

(** The transports in the order the selection prefers them. *)
Definition priority : list module_ref := [Pytds; AdoDbapi].

Definition available (env : environment) (m : module_ref) : bool :=
  match m with
  | Pytds => has_pytds env
  | AdoDbapi => has_ado_dbapi env && has_pythoncom env
  end.

End Transport.

(** ** The timezone factory (lines 53-56) *)

Definition utc : value := VObj "utc".

Definition utc_tzinfo_factory (offset : Z) : outcome value :=
  if negb (offset =? 0)
  then Raise (mk_exn AssertionError "database connection isn't set to UTC")
  else Ok utc.

(** ** Context managers and the [with] statement *)

(** An object used in [with]: [__enter__] and [__exit__], the latter
    given the exception in flight (if any) and answering whether to
    swallow it. *)
Record context_manager : Type := {
  cm_enter : outcome unit;
  cm_exit : option exn → outcome bool
}.

(** How a [with] block ends once its body has ended in [o]. *)
Definition with_exit {A} (cm : context_manager) (o : outcome A)
    : outcome (option A) :=
  match o with
  | Ok a =>
      match cm_exit cm None with
      | Ok _ => Ok (Some a)
      | Raise e' => Raise e'
      end
  | Raise e =>
      match cm_exit cm (Some e) with
      | Ok true => Ok None
      | Ok false => Raise e
      | Raise e' => Raise e'
      end
  end.

Definition with_ {S A} (cm : context_manager) (body : M S A)
    : M S (option A) :=
  let* _ := lift (cm_enter cm) in
  λ s, let '(o, s') := body s in (with_exit cm o, s').

(** ** The feature flags (lines 76-148) *)

Module DatabaseFeatures.

(** The flag assignments of the class body, in source order.  The table
    [failing_tests] and the property [has_zoneinfo_database] are not
    flags and are left out. *)
Definition class_body : list (string * value) :=
  [ ("uses_custom_query_class", VBool true);
    ("has_bulk_insert", VBool true);
    ("supports_timezones", VBool false);
    ("supports_sequence_reset", VBool false);
    ("can_return_id_from_insert", VBool true);
    ("supports_regex_backreferencing", VBool false);
    ("supports_tablespaces", VBool true);
    ("ignores_nulls_in_unique_constraints", VBool false);
    ("supports_nullable_unique_constraints", VBool false);
    ("supports_partially_nullable_unique_constraints", VBool false);
    ("can_introspect_autofield", VBool true);
    ("can_introspect_small_integer_field", VBool true);
    ("supports_subqueries_in_group_by", VBool false);
    ("allow_sliced_subqueries", VBool false);
    ("uses_savepoints", VBool true);
    ("supports_paramstyle_pyformat", VBool false);
    ("closed_cursor_error_class", VObj "DjangoInterfaceError");
    ("requires_literal_defaults", VBool true);
    ("has_select_for_update", VBool true);
    ("has_select_for_update_nowait", VBool false) ].

(** Attribute lookup on an instance: the instance's own attributes,
    then the class body, then the base classes. *)
Definition getattr (inherited instance : gmap string value) (name : string)
    : option value :=
  (instance ∪ dict_of class_body ∪ inherited) !! name.

End DatabaseFeatures.

(** ** The database wrapper (lines 165-274) *)

Import Transport.

(** A raw driver cursor as [is_usable] meets it: a context manager
    whose [__enter__] hands back the cursor itself, and [execute]. *)
Record raw_cursor : Type := {
  cur_manager : context_manager;
  cur_execute : string → outcome unit
}.

(** A driver connection.  An attribute the driver's connection class
    does not have is [None]. *)
Record connection_handle : Type := {
  product_version : option Z;
  adoConn : option (list (string * value));   (* adoConn.Properties as (Name, Value) *)
  adoConnProperties : option (gmap string value);
  cursor : outcome raw_cursor
}.

Definition set_adoConnProperties (v : gmap string value)
    (c : connection_handle) : connection_handle :=
  {| product_version := product_version c; adoConn := adoConn c;
     adoConnProperties := Some v; cursor := cursor c |}.

(** The state a [DatabaseWrapper] method works on: the instance's
    attributes, and the two pieces of process state its methods touch,
    the Django settings object and the warnings issued so far. *)
Record wrapper : Type := {
  Database : module_ref;                 (* the class attribute *)
  settings_dict : gmap string value;
  command_timeout : value;
  features : gmap string value;          (* attributes set on self.features *)
  tzinfo_factory : option value;         (* None: not assigned yet *)
  connection : option connection_handle; (* None: self.connection is None *)
  django_settings : gmap string value;   (* attributes of django.conf.settings *)
  warnings : list (exn_class * string)    (* warnings issued so far *)
}.

Definition set_features (v : gmap string value) (w : wrapper) : wrapper :=
  {| Database := Database w; settings_dict := settings_dict w;
     command_timeout := command_timeout w; features := v;
     tzinfo_factory := tzinfo_factory w; connection := connection w;
     django_settings := django_settings w; warnings := warnings w |}.

Definition set_tzinfo_factory (v : value) (w : wrapper) : wrapper :=
  {| Database := Database w; settings_dict := settings_dict w;
     command_timeout := command_timeout w; features := features w;
     tzinfo_factory := Some v; connection := connection w;
     django_settings := django_settings w; warnings := warnings w |}.

Definition set_connection (v : option connection_handle) (w : wrapper)
    : wrapper :=
  {| Database := Database w; settings_dict := settings_dict w;
     command_timeout := command_timeout w; features := features w;
     tzinfo_factory := tzinfo_factory w; connection := v;
     django_settings := django_settings w; warnings := warnings w |}.

Definition set_warnings (v : list (exn_class * string)) (w : wrapper)
    : wrapper :=
  {| Database := Database w; settings_dict := settings_dict w;
     command_timeout := command_timeout w; features := features w;
     tzinfo_factory := tzinfo_factory w; connection := connection w;
     django_settings := django_settings w; warnings := v |}.

(** [self.features.name = v] *)
Definition set_feature (name : string) (v : value) : M wrapper unit :=
  modify (λ w, set_features (<[name := v]> (features w)) w).

(** What the module takes from [sqlserver_ado], Django and the
    interpreter. *)
Class Externals : Type := {
  VERSION_SQL2008 : Z;                       (* sqlserver_ado.base.VERSION_SQL2008 *)
  py_int : string → option Z;                (* int(s); None is ValueError *)
  inherited_features : gmap string value;    (* flags of the base feature classes *)
  base_get_dbms_version : M wrapper string;  (* the base class's version getter *)
  connect : M wrapper unit;                  (* BaseDatabaseWrapper.connect *)
  (* whether the warnings filter in force has action "error" for a
     warning of this category and message *)
  warning_is_error : exn_class → string → bool
}.

Definition _SUPPORTED_OPTIONS : list string := ["failover_partner"].

(** The keys of the dictionary display of lines 187-198. *)
Definition conn_param_keys : list string :=
  ["server"; "database"; "user"; "password"; "timeout"; "autocommit";
   "use_mars"; "load_balancer"; "failover_partner"; "use_tz"].

(** [getattr(settings, name)]: the attribute must exist. *)
Definition settings_attr (name : string) : M wrapper value :=
  let* settings := gets django_settings in
  match settings !! name with
  | Some v => ret v
  | None => raise (mk_exn AttributeError name)
  end.

(** The dictionary display of lines 187-198. *)
Definition conn_params_display (host name user password timeout : value)
    (options settings : gmap string value) : gmap string value :=
  dict_of
    [ ("server", host);
      ("database", name);
      ("user", user);
      ("password", password);
      ("timeout", timeout);
      ("autocommit", dict_get options "autocommit" (VBool false));
      ("use_mars", dict_get options "use_mars" (VBool false));
      ("load_balancer", dict_get options "load_balancer" VNone);
      ("failover_partner", dict_get options "failover_partner" VNone);
      ("use_tz", if truthy (dict_get settings "USE_TZ" (VBool false))
                 then utc else VNone) ].

(** The loop of lines 200-202. *)
Definition forward_supported_options (options conn_params : gmap string value)
    : gmap string value :=
  foldl (λ params opt,
           match options !! opt with
           | Some v => <[opt := v]> params
           | None => params
           end) conn_params _SUPPORTED_OPTIONS.

(** Lines 181-206.  [autocommit] is read from the options before the
    display is built; the display's other entries are evaluated in
    order, so a missing [HOST] is reported before a missing [NAME]. *)
Definition get_connection_params_pytds : M wrapper (gmap string value) :=
  let* settings := gets django_settings in
  let* settings_dict := gets settings_dict in
  let* options := as_dict (dict_get settings_dict "OPTIONS" (VDict ∅)) in
  let* host := subscript settings_dict "HOST" in
  let* name := subscript settings_dict "NAME" in
  let* user := subscript settings_dict "USER" in
  let* password := subscript settings_dict "PASSWORD" in
  let* timeout := gets command_timeout in
  let conn_params :=
    conn_params_display host name user password timeout options settings in
  let conn_params := forward_supported_options options conn_params in
  let* use_tz := settings_attr "USE_TZ" in
  let* _ := modify (set_tzinfo_factory
                      (if truthy use_tz then VObj "utc_tzinfo_factory"
                       else VNone)) in
  ret conn_params.

Section Backend.
Context `{Externals}.

(** Lines 252-260. *)
Definition get_dbms_version_pytds (make_connection : bool)
    : M wrapper string :=
  let* conn := gets connection in
  let* _ := if negb (bool_decide (is_Some conn)) && make_connection
            then connect else ret tt in
  let* conn := gets connection in
  match conn ≫= product_version with
  | None => raise (mk_exn AttributeError "product_version")
  | Some pv =>
      let major := Z.shiftr (Z.land pv 0xff000000) 24 in
      let minor := Z.shiftr (Z.land pv 0xff0000) 16 in
      ret (pretty major +:+ "." +:+ pretty minor)
  end.

(** [self.__get_dbms_version()]: rebound to the pytds getter by
    [__init__] when the transport is pytds (lines 175-178). *)
Definition get_dbms_version : M wrapper string :=
  let* db := gets Database in
  if bool_decide (db = Pytds) then get_dbms_version_pytds true
  else base_get_dbms_version.

Definition unknown_version_message : string :=
  "Unable to determine MS SQL server version. Only SQL 2008 or newer is supported.".

Definition old_version_message : string :=
  "This version of MS SQL server is no longer tested with django-mssql and not officially supported/maintained.".

(** [warnings.warn(message, category)]: under a filter with action
    "error" the warning is raised as an exception; otherwise the call
    returns and the warning is on record as issued. *)
Definition warn (message : string) (category : exn_class) : M wrapper unit :=
  if warning_is_error category message
  then raise (mk_exn category message)
  else modify (λ w, set_warnings (warnings w ++ [(category, message)]) w).

(** [int(s)] *)
Definition int (s : string) : M wrapper Z :=
  match py_int s with
  | Some n => ret n
  | None => raise (mk_exn ValueError "invalid literal for int()")
  end.

(** Lines 220-221. *)
Definition cache_ado_properties : M wrapper unit :=
  let* conn := gets connection in
  match conn with
  | Some c =>
      match adoConn c with
      | Some properties =>
          modify (set_connection
            (Some (set_adoConnProperties
                     (dict_of properties) c)))
      | None => ret tt
      end
  | None => ret tt
  end.

(** Lines 223-234. *)
Definition probe_server_version : M wrapper unit :=
  try_except_else
    (let* version := get_dbms_version in
     let* major := index (split "." 2 version) 0 in
     int major)
    [IndexError; ValueError]
    (λ _, warn unknown_version_message DeprecationWarning)
    (λ sql_version,
       if sql_version <? VERSION_SQL2008
       then warn old_version_message DeprecationWarning
       else ret tt).

(** Lines 235-240. *)
Definition refine_features : M wrapper unit :=
  let* db := gets Database in
  let* _ := if bool_decide (db = Pytds)
            then let* _ := set_feature "supports_paramstyle_pyformat"
                             (VBool true) in
                 set_feature "supports_microsecond_precision" (VBool true)
            else ret tt in
  let* settings_dict := gets settings_dict in
  let* options := subscript settings_dict "OPTIONS" in
  let* options := as_dict options in
  if truthy (dict_get options "allow_nulls_in_unique_constraints"
               (VBool true))
  then set_feature "ignores_nulls_in_unique_constraints" (VBool true)
  else ret tt.

(** Lines 214-240. *)
Definition init_connection_state : M wrapper unit :=
  let* _ := cache_ado_properties in
  let* _ := probe_server_version in
  refine_features.

(** Reading a flag off [self.features]. *)
Definition feature (w : wrapper) (name : string) : option value :=
  DatabaseFeatures.getattr inherited_features (features w) name.

(** The body of the [try] of lines 265-266. *)
Definition round_trip : M wrapper (option unit) :=
  let* conn := gets connection in
  let* cur := match conn with
              | Some c => lift (cursor c)
              | None => raise (mk_exn AttributeError "cursor")
              end in
  with_ (cur_manager cur) (lift (cur_execute cur "SELECT 1")).

(** Lines 262-270. *)
Definition is_usable : M wrapper bool :=
  try_except_all round_trip (λ _, ret false) (λ _, ret true).

End Backend.

(** ** The cursor wrapper (lines 59-73) *)

Module CursorWrapper.

(** The framework's error class the wrapper of Django re-raises as
    (imported on line 7). *)
Definition DjangoError : exn_class :=
  Custom "django.db.utils.Error" Exception.
Definition DjangoInterfaceError : exn_class :=
  Custom "django.db.utils.InterfaceError" DjangoError.

(** A driver cursor: an object with state [C] and the three methods
    the wrapper reaches.  [raw_next] returning [None] is
    [StopIteration]. *)
Class RawCursor (C Row : Type) : Type := {
  raw_execute : string → list value → M C value;
  raw_fetchall : M C (list Row);
  raw_next : M C (option Row)
}.

Section Wrapper.
Context {C Row : Type} `{RawCursor C Row}.

(** The instance: the cursor it holds and the error wrapper.  The
    attributes [execute] and [fetchall] are bound methods of the
    very cursor held in [_cursor]. *)
Record _CursorWrapper : Type := {
  _cursor : C;
  _error_wrapper : context_manager
}.

Definition set_cursor (c : C) (w : _CursorWrapper) : _CursorWrapper :=
  {| _cursor := c; _error_wrapper := _error_wrapper w |}.

(** Calling a bound method of the held cursor. *)
Definition on_cursor {A} (m : M C A) : M _CursorWrapper A :=
  λ w, let '(o, c) := m (_cursor w) in (o, set_cursor c w).

(** Lines 64-65. *)
Definition execute (sql : string) (params : list value)
    : M _CursorWrapper value :=
  on_cursor (raw_execute sql params).

Definition fetchall : M _CursorWrapper (list Row) :=
  on_cursor raw_fetchall.

(** The generator made by [__iter__] (lines 70-73): where its frame
    stands and the wrapper it closes over. *)
Inductive position : Type := Created | Suspended | Finished.

Record generator : Type := {
  gen_at : position;
  gen_self : _CursorWrapper
}.

Definition __iter__ (w : _CursorWrapper) : generator :=
  {| gen_at := Created; gen_self := w |}.

(** One turn of the [for] loop inside the [with] block: yield the
    next row, or leave the block the way the loop ended. *)
Definition pull (w : _CursorWrapper) : outcome (option Row) * generator :=
  match raw_next (_cursor w) with
  | (Ok (Some item), c) =>
      (Ok (Some item), {| gen_at := Suspended; gen_self := set_cursor c w |})
  | (o, c) =>
      let ended := match o with Ok _ => Ok tt | Raise e => Raise e end in
      (match with_exit (_error_wrapper w) ended with
       | Ok _ => Ok None
       | Raise e' => Raise e'
       end,
       {| gen_at := Finished; gen_self := set_cursor c w |})
  end.

(** The generator's [__next__]. *)
Definition next : M generator (option Row) :=
  λ g, match gen_at g with
       | Finished => (Ok None, g)
       | Suspended => pull (gen_self g)
       | Created =>
           match cm_enter (_error_wrapper (gen_self g)) with
           | Ok _ => pull (gen_self g)
           | Raise e =>
               (Raise e, {| gen_at := Finished; gen_self := gen_self g |})
           end
       end.

(** How a consumer's loop over an iterator ends. *)
Inductive ending : Type :=
| Exhausted              (* StopIteration *)
| Failed (e : exn)       (* an exception reached the consumer *)
| Pending.               (* the consumer stopped asking *)

(** A consumer asking an iterator for at most [n] items. *)
Fixpoint consume {S} (step : M S (option Row)) (n : nat) (s : S)
    : list Row * ending * S :=
  match n with
  | O => ([], Pending, s)
  | Datatypes.S n' =>
      match step s with
      | (Ok (Some item), s') =>
          let '(items, e, s'') := consume step n' s' in
          (item :: items, e, s'')
      | (Ok None, s') => ([], Exhausted, s')
      | (Raise e, s') => ([], Failed e, s')
      end
  end.

(** What the consumer of the wrapper is left with when the raw cursor's
    loop ended in [e]: leaving the [with] block asks the error wrapper. *)
Definition through_wrapper (ew : context_manager) (e : ending) : ending :=
  match e with
  | Pending => Pending
  | Exhausted =>
      match with_exit ew (Ok tt) with
      | Ok _ => Exhausted
      | Raise e' => Failed e'
      end
  | Failed e =>
      match with_exit ew (Raise e : outcome unit) with
      | Ok _ => Exhausted
      | Raise e' => Failed e'
      end
  end.

End Wrapper.

End CursorWrapper.

(** ** The rest of the module *)

Module Rest.

(** Exception classes of Python and Django met below. *)
Definition TypeError : exn_class := Custom "TypeError" Exception.
Definition ValidationError : exn_class :=
  Custom "django.core.exceptions.ValidationError" Exception.

(** What the remaining code takes from the driver and from Django. *)
Class Collaborators : Type := {
  (* Database.connect( **conn_params ) of the selected driver module *)
  driver_connect : module_ref → gmap string value → outcome connection_handle;
  (* self.wrap_database_errors *)
  wrap_database_errors : context_manager;
  (* django.core.validators.validate_ipv46_address *)
  validate_ipv46_address : value → outcome unit;
  (* sqlserver_ado.schema.DatabaseSchemaEditor(connection, *args) *)
  new_schema_editor : wrapper → list value → outcome value
}.

(** *** The optional imports of lines 36-44 *)

Record optional_environment : Type := {
  has_schema : bool;   (* from sqlserver_ado.schema import DatabaseSchemaEditor *)
  has_pytz : bool      (* import pytz *)
}.

(** The two globals those lines bind; [Some tt] is the imported object. *)
Record optional_globals : Type := {
  DatabaseSchemaEditor : option unit;
  pytz : option unit
}.

Definition set_DatabaseSchemaEditor (v : option unit) (g : optional_globals)
    : optional_globals :=
  {| DatabaseSchemaEditor := v; pytz := pytz g |}.

Definition set_pytz (v : option unit) (g : optional_globals)
    : optional_globals :=
  {| DatabaseSchemaEditor := DatabaseSchemaEditor g; pytz := v |}.

Definition import_optional (available : bool) : M optional_globals unit :=
  if available then ret tt else raise (mk_exn ImportError "No module").

(** Lines 36-44. *)
Definition optional_imports (env : optional_environment)
    : M optional_globals unit :=
  let* _ :=
    try_except_else
      (let* m := import_optional (has_schema env) in
       modify (set_DatabaseSchemaEditor (Some m)))
      [ImportError]
      (λ _, modify (set_DatabaseSchemaEditor None))
      ret in
  try_except_else
    (let* m := import_optional (has_pytz env) in
     modify (set_pytz (Some m)))
    [ImportError]
    (λ _, modify (set_pytz None))
    ret.

(** Lines 113-115. *)
Definition has_zoneinfo_database (g : optional_globals) : bool :=
  bool_decide (pytz g ≠ None).

(** *** Method selection in [__init__] (lines 175-179) *)

Inductive implementation : Type := OfPytds | OfBase.

(** Which implementation each of the four names denotes on an instance. *)
Record method_table : Type := {
  m_get_connection_params : implementation;
  m_create_cursor : implementation;
  m_get_dbms_version : implementation;
  m_set_autocommit : implementation
}.

Definition base_methods : method_table :=
  {| m_get_connection_params := OfBase; m_create_cursor := OfBase;
     m_get_dbms_version := OfBase; m_set_autocommit := OfBase |}.

(** Lines 175-179: the test is the identity [self.Database is pytds]
    on the module globals. *)
Definition bind_methods (g : Transport.globals) : method_table :=
  if bool_decide (Transport.Database g = Transport.pytds g)
  then {| m_get_connection_params := OfPytds; m_create_cursor := OfPytds;
          m_get_dbms_version := OfPytds; m_set_autocommit := OfPytds |}
  else base_methods.

Section Methods.
Context `{Collaborators}.

(** Lines 151-162. *)
Definition is_ip_address (v : value) : outcome bool :=
  (try_except_else (lift (validate_ipv46_address v)) [ValidationError]
     (λ _, ret false) (λ _, ret true) tt).1.

(** The wrapper together with the attribute [get_new_connection] adds. *)
Record session : Type := {
  self : wrapper;
  _connection_string : option value   (* None: not assigned yet *)
}.

Definition set_connection_string (v : value) (s : session) : session :=
  {| self := self s; _connection_string := Some v |}.

(** Lines 208-212. *)
Definition get_new_connection (conn_params : gmap string value)
    : M session connection_handle :=
  let* _ := modify (set_connection_string
                      (dict_get conn_params "connection_string" (VStr ""))) in
  let* db := gets (λ s, Database (self s)) in
  lift (driver_connect db conn_params).

(** A driver cursor with the attributes the backend sets on it. *)
Record cursor_object : Type := {
  cur_handle : raw_cursor;
  cur_attrs : gmap string value
}.

(** Lines 242-247. *)
Definition create_cursor_pytds
    : M wrapper (CursorWrapper._CursorWrapper (C := cursor_object)) :=
  let* conn := gets connection in
  let* cursor := match conn with
                 | Some c => lift (cursor c)
                 | None => raise (mk_exn AttributeError "cursor")
                 end in
  let* tz := gets tzinfo_factory in
  match tz with
  | Some factory =>
      ret {| CursorWrapper._cursor :=
               {| cur_handle := cursor;
                  cur_attrs := <["tzinfo_factory" := factory]> ∅ |};
             CursorWrapper._error_wrapper := wrap_database_errors |}
  | None => raise (mk_exn AttributeError "tzinfo_factory")
  end.

(** Lines 272-274, with the global bound by line 37 or 39. *)
Definition schema_editor (g : optional_globals) (args : list value)
    : M wrapper value :=
  match DatabaseSchemaEditor g with
  | Some _ => λ w, (new_schema_editor w args, w)
  | None => raise (mk_exn TypeError "'NoneType' object is not callable")
  end.

End Methods.

End Rest.

(** ** Sample inputs *)

Module Samples.

(** The settings of the specification's scenario: host db1, database
    orders, user svc, password x, and the options failover_partner and
    bogus_key. *)
Definition scenario_settings : gmap string value :=
  dict_of
    [ ("HOST", VStr "db1");
      ("NAME", VStr "orders");
      ("USER", VStr "svc");
      ("PASSWORD", VStr "x");
      ("OPTIONS", VDict (dict_of [ ("failover_partner", VStr "db2");
                                   ("bogus_key", VStr "z") ])) ].

(** A wrapper over given settings, before any connection is made, with
    command timeout 30. *)
Definition fresh_wrapper (db : module_ref)
    (settings_dict django_settings : gmap string value) : wrapper :=
  {| Database := db; settings_dict := settings_dict;
     command_timeout := VInt 30; features := ∅; tzinfo_factory := None;
     connection := None; django_settings := django_settings;
     warnings := [] |}.

Definition scenario_wrapper : wrapper :=
  fresh_wrapper Pytds scenario_settings (dict_of [("USE_TZ", VBool false)]).

(** Settings whose host, database name and user are empty strings. *)
Definition blank_settings : gmap string value :=
  dict_of
    [ ("HOST", VStr ""); ("NAME", VStr ""); ("USER", VStr "");
      ("PASSWORD", VStr ""); ("OPTIONS", VDict ∅) ].

Definition blank_wrapper : wrapper :=
  fresh_wrapper Pytds blank_settings (dict_of [("USE_TZ", VBool true)]).

(** The collaborators as they stand with django-mssql: SQL Server 2008
    is major version 10; the base getter answers a fixed string. *)
Definition sample_externals (version : string) : Externals :=
  {| VERSION_SQL2008 := 10;
     py_int := ascii_int;
     inherited_features := ∅;
     base_get_dbms_version := ret version;
     connect := ret tt;
     warning_is_error := λ _ _, false |}.

(** A cursor whose statements succeed, and one whose [execute] fails;
    leaving the block closes the cursor and swallows nothing. *)
Definition closing : context_manager :=
  {| cm_enter := Ok tt; cm_exit := λ _, Ok false |}.

Definition good_cursor : raw_cursor :=
  {| cur_manager := closing; cur_execute := λ _, Ok tt |}.

Definition broken_cursor : raw_cursor :=
  {| cur_manager := closing;
     cur_execute := λ _,
       Raise (mk_exn (Custom "pytds.ClosedConnectionError" Exception)
                "Server closed connection") |}.

(** An open pytds connection to a server of the given product version. *)
Definition pytds_connection (pv : Z) (cur : outcome raw_cursor)
    : connection_handle :=
  {| product_version := Some pv; adoConn := None;
     adoConnProperties := None; cursor := cur |}.

Definition connected_wrapper (pv : Z) (cur : outcome raw_cursor) : wrapper :=
  set_connection (Some (pytds_connection pv cur)) scenario_wrapper.

(** A wrapper on the ado transport. *)
Definition ado_wrapper : wrapper :=
  fresh_wrapper AdoDbapi scenario_settings (dict_of [("USE_TZ", VBool false)]).

(** A scripted driver cursor: the answers its [__next__] will give,
    in order; [execute] and [fetchall] fail once the script starts
    with a failure. *)
Definition scripted_next (script : list (outcome Z))
    : outcome (option Z) * list (outcome Z) :=
  match script with
  | [] => (Ok None, [])
  | Ok row :: script' => (Ok (Some row), script')
  | Raise e :: script' => (Raise e, script')
  end.

Definition scripted_call {A} (result : A) (script : list (outcome Z))
    : outcome A * list (outcome Z) :=
  match script with
  | Raise e :: script' => (Raise e, script')
  | _ => (Ok result, script)
  end.

#[global] Instance scripted_cursor
    : CursorWrapper.RawCursor (list (outcome Z)) Z :=
  {| CursorWrapper.raw_execute := λ _ _, scripted_call VNone;
     CursorWrapper.raw_fetchall := scripted_call [];
     CursorWrapper.raw_next := scripted_next |}.

Definition driver_error : exn :=
  mk_exn (Custom "pytds.OperationalError" Exception) "connection reset".

(** An error wrapper that re-raises whatever leaves the block as the
    framework's error, keeping the argument. *)
Definition reraising : context_manager :=
  {| cm_enter := Ok tt;
     cm_exit := λ raised,
       match raised with
       | Some e =>
           Raise (mk_exn CursorWrapper.DjangoInterfaceError (exn_arg e))
       | None => Ok false
       end |}.

Definition sample_cursor_wrapper
    : CursorWrapper._CursorWrapper (C := list (outcome Z)) :=
  {| CursorWrapper._cursor := [Ok 1; Ok 2; Raise driver_error];
     CursorWrapper._error_wrapper := reraising |}.

(** Collaborators whose base version getter raises. *)
Definition failing_externals (e : exn) : Externals :=
  {| VERSION_SQL2008 := 10;
     py_int := ascii_int;
     inherited_features := ∅;
     base_get_dbms_version := raise e;
     connect := ret tt;
     warning_is_error := λ _ _, false |}.

Definition com_error : exn :=
  mk_exn (Custom "pywintypes.com_error" Exception) "Unspecified error".

(** Settings without an OPTIONS key, and a pytds wrapper over them with
    an open connection. *)
Definition bare_settings : gmap string value :=
  dict_of
    [ ("HOST", VStr "db1"); ("NAME", VStr "orders"); ("USER", VStr "svc");
      ("PASSWORD", VStr "x") ].

Definition bare_wrapper : wrapper :=
  set_connection (Some (pytds_connection 0x0A320000 (Ok good_cursor)))
    (fresh_wrapper Pytds bare_settings (dict_of [("USE_TZ", VBool true)])).

(** An ado connection whose property collection names one property
    twice. *)
Definition ado_connection : connection_handle :=
  {| product_version := None;
     adoConn := Some [ ("DBMS Version", VStr "09.00.4035");
                       ("DBMS Name", VStr "Microsoft SQL Server");
                       ("DBMS Version", VStr "10.50.1600") ];
     adoConnProperties := None; cursor := Ok good_cursor |}.

(** The same collaborators under a warnings filter with action "error"
    for every warning. *)
Definition strict_externals (version : string) : Externals :=
  {| VERSION_SQL2008 := 10;
     py_int := ascii_int;
     inherited_features := ∅;
     base_get_dbms_version := ret version;
     connect := ret tt;
     warning_is_error := λ _ _, true |}.

(** An error wrapper in the manner of Django's: a driver error is
    re-raised as the framework's error of the same name, keeping the
    argument, and any other exception is let through. *)
Definition DjangoOperationalError : exn_class :=
  Custom "django.db.utils.OperationalError"
    (Custom "django.db.utils.DatabaseError" CursorWrapper.DjangoError).

Definition by_name : context_manager :=
  {| cm_enter := Ok tt;
     cm_exit := λ raised,
       match raised with
       | Some e =>
           if isinstance e (Custom "pytds.OperationalError" Exception)
           then Raise (mk_exn DjangoOperationalError (exn_arg e))
           else if isinstance e (Custom "pytds.InterfaceError" Exception)
           then Raise (mk_exn CursorWrapper.DjangoInterfaceError (exn_arg e))
           else Ok false
       | None => Ok false
       end |}.

(** The scripted cursor behind that error wrapper, and one whose third
    pull fails with an exception that is not the driver's. *)
Definition by_name_cursor_wrapper
    : CursorWrapper._CursorWrapper (C := list (outcome Z)) :=
  {| CursorWrapper._cursor := [Ok 1; Ok 2; Raise driver_error];
     CursorWrapper._error_wrapper := by_name |}.

Definition decoding_error : exn :=
  mk_exn ValueError "year 0 is out of range".

Definition decoding_cursor_wrapper
    : CursorWrapper._CursorWrapper (C := list (outcome Z)) :=
  {| CursorWrapper._cursor := [Ok 1; Ok 2; Raise decoding_error];
     CursorWrapper._error_wrapper := by_name |}.

(** A driver that accepts every login, the re-raising error wrapper, a
    validator that knows one address, and a schema editor class. *)
Definition sample_collaborators : Rest.Collaborators :=
  {| Rest.driver_connect := λ _ _,
       Ok (pytds_connection 0x0A320000 (Ok good_cursor));
     Rest.wrap_database_errors := reraising;
     Rest.validate_ipv46_address := λ v,
       match v with
       | VStr "127.0.0.1" => Ok tt
       | _ => Raise (mk_exn Rest.ValidationError "Enter a valid IP address.")
       end;
     Rest.new_schema_editor := λ _ _, Ok (VObj "DatabaseSchemaEditor") |}.

(** Settings that lack the database name. *)
Definition nameless_wrapper : wrapper :=
  fresh_wrapper Pytds
    (dict_of [("HOST", VStr "db1"); ("PASSWORD", VStr "x")])
    (dict_of [("USE_TZ", VBool false)]).

(** A cursor whose [__exit__] swallows what the block raised. *)
Definition swallowing_cursor : raw_cursor :=
  {| cur_manager := {| cm_enter := Ok tt; cm_exit := λ _, Ok true |};
     cur_execute := λ _, Raise driver_error |}.

End Samples.

(** * Properties *)

(** ** Transport selection *)

Module TransportFacts.
Import Transport.

(** After a successful import the test [Database is pytds] of the
    wrapper holds exactly when the selected transport is pytds. *)
Lemma Database_is_pytds (env : environment) (g : globals) :
  module_init env unbound = (Ok tt, g) →
  (Database g = pytds g ↔ Database g = Some Pytds).
Proof.
  destruct env as [[] [] []]; cbv; intros [= <-]; cbn;
    split; congruence.
Qed.

(** C1: the import-time code binds [Database] to the first available
    transport in the order pytds, ado; when neither is available it
    raises the exception carrying the "not available" message and binds
    nothing. *)
Theorem selection_by_priority (env : environment) :
  match List.find (available env) priority with
  | Some m =>
      ∃ g, module_init env unbound = (Ok tt, g) ∧ Database g = Some m
  | None =>
      ∃ g, module_init env unbound
             = (Raise (mk_exn Exception no_transport_message), g)
           ∧ Database g = None
  end.
Proof.
  destruct env as [[] [] []]; cbn; eexists; split; reflexivity.
Qed.

End TransportFacts.

(** ** The timezone factory *)

(** C3: offset 0 gives the UTC marker, every other integer offset raises
    [AssertionError], and there is no third behaviour. *)
Theorem utc_tzinfo_factory_cases (offset : Z) :
  (offset = 0 → utc_tzinfo_factory offset = Ok utc) ∧
  (offset ≠ 0 →
     ∃ msg, utc_tzinfo_factory offset = Raise (mk_exn AssertionError msg)).
Proof.
  unfold utc_tzinfo_factory. split.
  - intros ->. reflexivity.
  - intros Hne. apply Z.eqb_neq in Hne. rewrite Hne. cbn. eauto.
Qed.

Lemma utc_tzinfo_factory_cases_witness :
  utc_tzinfo_factory 0 = Ok utc ∧
  ∃ msg, utc_tzinfo_factory 3600 = Raise (mk_exn AssertionError msg).
Proof.
  split.
  - apply (proj1 (utc_tzinfo_factory_cases 0)). reflexivity.
  - apply (proj2 (utc_tzinfo_factory_cases 3600)). lia.
Defined.

(** ** The connection-parameter builder *)

(** Unfold the monad's operations and reduce the administrative redexes. *)
Ltac py_run :=
  unfold bind, gets, ret, raise, modify, lift; cbv beta iota zeta.

Section Builder.
Implicit Types (w : wrapper) (options params : gmap string value).

(** The loop re-assigns what the display already holds. *)
Lemma forward_supported_options_display host name user password timeout
    options settings :
  forward_supported_options options
    (conn_params_display host name user password timeout options settings)
  = conn_params_display host name user password timeout options settings.
Proof.
  unfold forward_supported_options, _SUPPORTED_OPTIONS. cbn [foldl].
  destruct (options !! "failover_partner") as [v|] eqn:Hf; [|reflexivity].
  apply insert_id. unfold conn_params_display, dict_get. rewrite Hf.
  unfold dict_of; cbn [foldl fst snd]. by simplify_map_eq.
Qed.

(** When every lookup succeeds the builder returns the display and
    assigns [tzinfo_factory]. *)
Lemma builder_runs w options host name user password use_tz :
  dict_get (settings_dict w) "OPTIONS" (VDict ∅) = VDict options →
  settings_dict w !! "HOST" = Some host →
  settings_dict w !! "NAME" = Some name →
  settings_dict w !! "USER" = Some user →
  settings_dict w !! "PASSWORD" = Some password →
  django_settings w !! "USE_TZ" = Some use_tz →
  get_connection_params_pytds w
  = (Ok (conn_params_display host name user password (command_timeout w)
           options (django_settings w)),
     set_tzinfo_factory
       (if truthy use_tz then VObj "utc_tzinfo_factory" else VNone) w).
Proof.
  intros Ho Hh Hn Hu Hp Ht.
  unfold get_connection_params_pytds, as_dict, subscript, settings_attr.
  py_run. rewrite Ho, Hh, Hn, Hu, Hp, Ht.
  by rewrite forward_supported_options_display.
Qed.

(** Conversely, a returned dictionary means every lookup succeeded. *)
Lemma builder_returned w params w' :
  get_connection_params_pytds w = (Ok params, w') →
  ∃ options host name user password use_tz,
    dict_get (settings_dict w) "OPTIONS" (VDict ∅) = VDict options ∧
    settings_dict w !! "HOST" = Some host ∧
    settings_dict w !! "NAME" = Some name ∧
    settings_dict w !! "USER" = Some user ∧
    settings_dict w !! "PASSWORD" = Some password ∧
    django_settings w !! "USE_TZ" = Some use_tz ∧
    params = conn_params_display host name user password (command_timeout w)
               options (django_settings w).
Proof.
  intros Hrun.
  destruct (dict_get (settings_dict w) "OPTIONS" (VDict ∅))
    as [| | | | |options] eqn:Ho;
    try (revert Hrun; unfold get_connection_params_pytds, as_dict;
         py_run; rewrite Ho; discriminate).
  destruct (settings_dict w !! "HOST") as [host|] eqn:Hh;
    [|revert Hrun; unfold get_connection_params_pytds, as_dict, subscript;
      py_run; rewrite Ho, Hh; discriminate].
  destruct (settings_dict w !! "NAME") as [name|] eqn:Hn;
    [|revert Hrun; unfold get_connection_params_pytds, as_dict, subscript;
      py_run; rewrite Ho, Hh, Hn; discriminate].
  destruct (settings_dict w !! "USER") as [user|] eqn:Hu;
    [|revert Hrun; unfold get_connection_params_pytds, as_dict, subscript;
      py_run; rewrite Ho, Hh, Hn, Hu; discriminate].
  destruct (settings_dict w !! "PASSWORD") as [password|] eqn:Hp;
    [|revert Hrun; unfold get_connection_params_pytds, as_dict, subscript;
      py_run; rewrite Ho, Hh, Hn, Hu, Hp; discriminate].
  destruct (django_settings w !! "USE_TZ") as [use_tz|] eqn:Ht;
    [|revert Hrun;
      unfold get_connection_params_pytds, as_dict, subscript, settings_attr;
      py_run; rewrite Ho, Hh, Hn, Hu, Hp, Ht; discriminate].
  rewrite (builder_runs w options host name user password use_tz) in Hrun
    by assumption.
  injection Hrun as <- _.
  exists options, host, name, user, password, use_tz. done.
Qed.

(** The keys of the display are the ten fixed ones. *)
Lemma conn_params_display_dom host name user password timeout options
    settings :
  dom (conn_params_display host name user password timeout options settings)
  = list_to_set conn_param_keys.
Proof.
  unfold conn_params_display, dict_of, conn_param_keys.
  cbn [foldl fst snd list_to_set].
  rewrite !dom_insert_L, dom_empty_L. set_solver.
Qed.

Lemma conn_params_display_lookup host name user password timeout options
    settings :
  let params :=
    conn_params_display host name user password timeout options settings in
  params !! "server" = Some host ∧
  params !! "database" = Some name ∧
  params !! "user" = Some user ∧
  params !! "password" = Some password ∧
  params !! "timeout" = Some timeout ∧
  params !! "failover_partner"
    = Some (dict_get options "failover_partner" VNone).
Proof.
  unfold conn_params_display, dict_of. cbn [foldl fst snd].
  repeat split; by simplify_map_eq.
Qed.

End Builder.

Section BuilderClaims.
Import Samples.
Implicit Types (w : wrapper) (options params : gmap string value).

(** The builder either leaves the wrapper as it is (and raises), or
    returns and has assigned [tzinfo_factory] from [settings.USE_TZ]. *)
Lemma builder_effect w :
  (returns (get_connection_params_pytds w).1 = false ∧
   (get_connection_params_pytds w).2 = w) ∨
  (∃ use_tz, django_settings w !! "USE_TZ" = Some use_tz ∧
     returns (get_connection_params_pytds w).1 = true ∧
     (get_connection_params_pytds w).2
     = set_tzinfo_factory
         (if truthy use_tz then VObj "utc_tzinfo_factory" else VNone) w).
Proof.
  unfold get_connection_params_pytds, as_dict, subscript, settings_attr.
  py_run.
  repeat case_match; simplify_eq; cbn [fst snd returns];
    first [ by left
          | right; eexists; split; [eassumption|]; split; [done|];
            match goal with Ht : truthy _ = _ |- _ => by rewrite Ht end ].
Qed.

(** C2: whatever the options hold, a returned parameter dictionary has
    exactly the ten fixed keys; a supported option present in the
    options is forwarded with its value; an option key outside the
    fixed keys is not forwarded; and the timeout is the wrapper's
    command timeout.  In the scenario of the specification the result
    has failover_partner "db2" and timeout 30, and no bogus_key. *)
Theorem option_filtering :
  (∀ w params w' options,
     get_connection_params_pytds w = (Ok params, w') →
     dict_get (settings_dict w) "OPTIONS" (VDict ∅) = VDict options →
     dom params = list_to_set conn_param_keys ∧
     (∀ k v, k ∈ _SUPPORTED_OPTIONS → options !! k = Some v →
             params !! k = Some v) ∧
     (∀ k, k ∈ dom options → k ∉ conn_param_keys → params !! k = None) ∧
     params !! "timeout" = Some (command_timeout w)) ∧
  (∃ params w',
     get_connection_params_pytds scenario_wrapper = (Ok params, w') ∧
     params !! "failover_partner" = Some (VStr "db2") ∧
     params !! "timeout" = Some (VInt 30) ∧
     params !! "bogus_key" = None).
Proof.
  split.
  - intros w params w' options Hrun Ho.
    destruct (builder_returned _ _ _ Hrun)
      as (options' & host & name & user & password & use_tz
          & Ho' & _ & _ & _ & _ & _ & ->).
    rewrite Ho in Ho'. injection Ho' as <-.
    pose proof (conn_params_display_dom host name user password
                  (command_timeout w) options (django_settings w)) as Hdom.
    pose proof (conn_params_display_lookup host name user password
                  (command_timeout w) options (django_settings w))
      as (_ & _ & _ & _ & Htimeout & Hfailover).
    repeat split; try assumption.
    + intros k v Hk Hv. unfold _SUPPORTED_OPTIONS in Hk.
      apply list_elem_of_singleton in Hk as ->.
      rewrite Hfailover. unfold dict_get. by rewrite Hv.
    + intros k _ Hk. apply not_elem_of_dom. rewrite Hdom.
      by rewrite elem_of_list_to_set.
  - eexists _, _. split.
    + apply (builder_runs scenario_wrapper); reflexivity.
    + vm_compute. done.
Qed.

Lemma option_filtering_witness :
  ∃ params,
    (get_connection_params_pytds scenario_wrapper).1 = Ok params ∧
    dom params = list_to_set conn_param_keys ∧
    params !! "failover_partner" = Some (VStr "db2").
Proof.
  destruct (proj2 option_filtering) as (params & w' & Hrun & _).
  exists params. rewrite Hrun. split; [reflexivity|].
  destruct (proj1 option_filtering scenario_wrapper params w'
              (dict_of [("failover_partner", VStr "db2");
                        ("bogus_key", VStr "z")]) Hrun eq_refl)
    as (Hdom & Hfwd & _).
  split; [exact Hdom|].
  apply Hfwd; [by apply list_elem_of_singleton | reflexivity].
Defined.

(** C7, as stated, fails: on the scenario's wrapper the builder leaves
    a state other than the one it was called in, having assigned
    [tzinfo_factory]. *)
Lemma builder_assigns_tzinfo_factory :
  tzinfo_factory scenario_wrapper = None ∧
  tzinfo_factory (get_connection_params_pytds scenario_wrapper).2
    = Some VNone ∧
  (get_connection_params_pytds scenario_wrapper).2 ≠ scenario_wrapper.
Proof.
  split; [reflexivity|]. split; [reflexivity|].
  intros Heq. apply (f_equal tzinfo_factory) in Heq. discriminate Heq.
Qed.

(** C7, amended: the outcome is a function of the settings dictionary,
    the command timeout and the Django settings alone; a second call
    returns what the first did and changes nothing further; and the
    one effect of a call is the assignment of [tzinfo_factory]: a call
    that raises leaves the wrapper as it was, a call that returns has
    assigned [utc_tzinfo_factory] when [settings.USE_TZ] is true and
    [None] otherwise, and changed nothing else. *)
Theorem builder_deterministic w :
  (∀ w2, settings_dict w2 = settings_dict w →
         command_timeout w2 = command_timeout w →
         django_settings w2 = django_settings w →
         (get_connection_params_pytds w2).1
         = (get_connection_params_pytds w).1) ∧
  get_connection_params_pytds (get_connection_params_pytds w).2
  = get_connection_params_pytds w ∧
  ((returns (get_connection_params_pytds w).1 = false ∧
    (get_connection_params_pytds w).2 = w) ∨
   (∃ use_tz, django_settings w !! "USE_TZ" = Some use_tz ∧
      returns (get_connection_params_pytds w).1 = true ∧
      (get_connection_params_pytds w).2
      = set_tzinfo_factory
          (if truthy use_tz then VObj "utc_tzinfo_factory" else VNone) w)).
Proof.
  split; [|split].
  - intros w2 Hs Hc Hd. destruct w, w2. cbn in Hs, Hc, Hd. subst.
    unfold get_connection_params_pytds, as_dict, subscript, settings_attr.
    py_run. cbn [settings_dict command_timeout django_settings].
    repeat (case_match; simplify_eq;
            cbn [settings_dict command_timeout django_settings]
              in *);
      simplify_eq; reflexivity.
  - destruct (get_connection_params_pytds w) as [[params|e] w'] eqn:Hrun.
    + destruct (builder_returned _ _ _ Hrun)
        as (options & host & name & user & password & use_tz
            & Ho & Hh & Hn & Hu & Hp & Ht & ->).
      rewrite (builder_runs w options host name user password use_tz)
        in Hrun by assumption.
      injection Hrun as <-. cbn [snd].
      apply (builder_runs (set_tzinfo_factory _ w) options host name user
               password use_tz); assumption.
    + destruct (builder_effect w) as [[_ Hsame]|(? & _ & Hret & _)].
      * rewrite Hrun in Hsame. cbn [snd] in *. subst w'. exact Hrun.
      * rewrite Hrun in Hret. discriminate Hret.
  - apply builder_effect.
Qed.

Lemma builder_deterministic_witness :
  (get_connection_params_pytds
     (fresh_wrapper AdoDbapi scenario_settings
        (dict_of [("USE_TZ", VBool false)]))).1
  = (get_connection_params_pytds scenario_wrapper).1.
Proof.
  apply (proj1 (builder_deterministic scenario_wrapper)); reflexivity.
Defined.

(** C8, as stated, fails: with host, database name and user all empty
    the builder returns a parameter dictionary holding the empty
    strings. *)
Lemma blank_fields_accepted :
  settings_dict blank_wrapper !! "HOST" = Some (VStr "") ∧
  settings_dict blank_wrapper !! "NAME" = Some (VStr "") ∧
  settings_dict blank_wrapper !! "USER" = Some (VStr "") ∧
  ∃ params w',
    get_connection_params_pytds blank_wrapper = (Ok params, w') ∧
    params !! "server" = Some (VStr "") ∧
    params !! "database" = Some (VStr "") ∧
    params !! "user" = Some (VStr "").
Proof.
  repeat (split; [reflexivity|]).
  eexists _, _. split.
  - apply (builder_runs blank_wrapper); reflexivity.
  - vm_compute. done.
Qed.

(** C8, amended: the builder does not inspect the values of the
    required fields.  Whenever the settings dictionary has the keys
    HOST, NAME, USER and PASSWORD (and [settings.USE_TZ] exists) it
    returns, with host, database name and user copied unchanged, empty
    or not; it fails, with [KeyError] and no parameters, when one of
    these keys is missing. *)
Theorem builder_copies_required_fields w options :
  dict_get (settings_dict w) "OPTIONS" (VDict ∅) = VDict options →
  (∀ host name user password use_tz,
     settings_dict w !! "HOST" = Some host →
     settings_dict w !! "NAME" = Some name →
     settings_dict w !! "USER" = Some user →
     settings_dict w !! "PASSWORD" = Some password →
     django_settings w !! "USE_TZ" = Some use_tz →
     ∃ params w',
       get_connection_params_pytds w = (Ok params, w') ∧
       params !! "server" = Some host ∧
       params !! "database" = Some name ∧
       params !! "user" = Some user) ∧
  (∀ k, k ∈ ["HOST"; "NAME"; "USER"; "PASSWORD"] →
        settings_dict w !! k = None →
        ∃ missing,
          get_connection_params_pytds w
          = (Raise (mk_exn KeyError missing), w)).
Proof.
  intros Ho. split.
  - intros host name user password use_tz Hh Hn Hu Hp Ht.
    eexists _, _. split; [by apply builder_runs|].
    pose proof (conn_params_display_lookup host name user password
                  (command_timeout w) options (django_settings w))
      as (? & ? & ? & _).
    done.
  - intros k Hk Hnone.
    unfold get_connection_params_pytds, as_dict, subscript.
    py_run. rewrite Ho.
    repeat (apply elem_of_cons in Hk as [->|Hk]);
      [..|by apply elem_of_nil in Hk];
      repeat case_match; simplify_eq; eauto.
Qed.

Lemma builder_copies_required_fields_witness :
  ∃ params w',
    get_connection_params_pytds blank_wrapper = (Ok params, w') ∧
    params !! "server" = Some (VStr "") ∧
    params !! "database" = Some (VStr "") ∧
    params !! "user" = Some (VStr "").
Proof.
  apply (proj1 (builder_copies_required_fields blank_wrapper ∅ eq_refl)
           (VStr "") (VStr "") (VStr "") (VStr "") (VBool true));
    reflexivity.
Defined.

End BuilderClaims.

(** ** Connection initialisation *)

Section InitFacts.
Context `{Externals}.
Implicit Types (w : wrapper) (name : string).

(** [split] always has a first component, so the subscript [[0]] of
    line 224 cannot raise [IndexError]. *)
Lemma split_go_nonempty sep n acc s : split_go sep n acc s ≠ [].
Proof.
  revert n acc. induction s as [|c s IH]; intros n acc; cbn; [done|].
  destruct n; [done|]. destruct (Ascii.eqb c sep); [done|apply IH].
Qed.

Lemma split_has_first sep n s : ∃ major rest, split sep n s = major :: rest.
Proof.
  unfold split. pose proof (split_go_nonempty sep n "" s).
  destruct (split_go sep n "" s); [done|eauto].
Qed.

(** Caching the ado properties touches the connection only. *)
Lemma cache_ado_properties_frame w :
  (cache_ado_properties w).1 = Ok tt ∧
  features (cache_ado_properties w).2 = features w ∧
  settings_dict (cache_ado_properties w).2 = settings_dict w ∧
  Database (cache_ado_properties w).2 = Database w ∧
  warnings (cache_ado_properties w).2 = warnings w.
Proof.
  unfold cache_ado_properties. py_run.
  destruct (connection w) as [c|]; [destruct (adoConn c)|]; done.
Qed.

(** With pytds on an open connection the version getter only reads. *)
Lemma get_dbms_version_pytds_reads w c pv :
  Database w = Pytds →
  connection w = Some c →
  product_version c = Some pv →
  get_dbms_version w
  = (Ok (pretty (Z.shiftr (Z.land pv 0xff000000) 24) +:+ "." +:+
         pretty (Z.shiftr (Z.land pv 0xff0000) 16)), w).
Proof.
  intros Hdb Hc Hpv. unfold get_dbms_version, get_dbms_version_pytds.
  py_run. rewrite Hdb. rewrite bool_decide_eq_true_2 by done.
  py_run. rewrite Hc. rewrite bool_decide_eq_true_2 by eauto.
  cbn [negb andb]. py_run. rewrite Hc. cbn. rewrite Hpv. reflexivity.
Qed.

(** A call of [warnings.warn] returns with the warning on record, or
    raises it; either way it touches nothing else of the wrapper. *)
Lemma warn_returns message category w :
  warning_is_error category message = false →
  warn message category w
  = (Ok tt, set_warnings (warnings w ++ [(category, message)]) w).
Proof. intros Hfilter. unfold warn. by rewrite Hfilter. Qed.

Lemma warn_raises message category w :
  warning_is_error category message = true →
  warn message category w = (Raise (mk_exn category message), w).
Proof. intros Hfilter. unfold warn. by rewrite Hfilter. Qed.

Lemma warn_frame message category w :
  features (warn message category w).2 = features w ∧
  settings_dict (warn message category w).2 = settings_dict w ∧
  Database (warn message category w).2 = Database w ∧
  connection (warn message category w).2 = connection w.
Proof. unfold warn. by destruct (warning_is_error category message). Qed.

(** The two ways the probe of lines 223-234 goes on once the getter has
    answered: with the warning of line 226, or with that of line 231 when
    the major version is below the threshold. *)
Lemma probe_unparsable w w1 version major rest :
  get_dbms_version w = (Ok version, w1) →
  split "." 2 version = major :: rest →
  py_int major = None →
  probe_server_version w = warn unknown_version_message DeprecationWarning w1.
Proof.
  intros Hget Hsplit Hint.
  unfold probe_server_version, try_except_else, index, int.
  py_run. rewrite Hget, Hsplit. cbn [lookup list_lookup]. by rewrite Hint.
Qed.

Lemma probe_parsed w w1 version major rest n :
  get_dbms_version w = (Ok version, w1) →
  split "." 2 version = major :: rest →
  py_int major = Some n →
  probe_server_version w
  = if n <? VERSION_SQL2008
    then warn old_version_message DeprecationWarning w1
    else (Ok tt, w1).
Proof.
  intros Hget Hsplit Hint.
  unfold probe_server_version, try_except_else, index, int.
  py_run. rewrite Hget, Hsplit. cbn [lookup list_lookup]. rewrite Hint.
  by destruct (n <? VERSION_SQL2008).
Qed.

(** Whatever the getter does, the probe's own statements leave the
    flags, the settings and the transport as the getter left them. *)
Lemma probe_frame w :
  features (probe_server_version w).2 = features (get_dbms_version w).2 ∧
  settings_dict (probe_server_version w).2
    = settings_dict (get_dbms_version w).2 ∧
  Database (probe_server_version w).2 = Database (get_dbms_version w).2.
Proof.
  unfold probe_server_version, try_except_else, index, int. py_run.
  destruct (get_dbms_version w) as [[version|e] w1]; cbn [snd].
  - destruct (split_has_first "." 2 version) as (major & rest & ->).
    cbn [lookup list_lookup].
    destruct (py_int major) as [n|].
    + destruct (n <? VERSION_SQL2008); [|done].
      by destruct (warn_frame old_version_message DeprecationWarning w1)
        as (? & ? & ? & _).
    + cbn [existsb]. replace (isinstance _ IndexError) with false by done.
      replace (isinstance _ ValueError) with true by done. cbn [orb].
      by destruct (warn_frame unknown_version_message DeprecationWarning w1)
        as (? & ? & ? & _).
  - destruct (existsb _ _); [|done].
    by destruct (warn_frame unknown_version_message DeprecationWarning w1)
      as (? & ? & ? & _).
Qed.

(** Reading a flag after an assignment to [self.features]. *)
Lemma feature_set_features w name k v :
  feature (set_features (<[k := v]> (features w)) w) name
  = if decide (k = name) then Some v else feature w name.
Proof.
  unfold feature, DatabaseFeatures.getattr. cbn [features set_features].
  rewrite <- !insert_union_l. apply lookup_insert.
Qed.

(** Each statement of lines 235-240 assigns [True]: a flag read after
    them is what it was, or [True]. *)
Lemma refine_features_widens w name :
  feature (refine_features w).2 name = feature w name ∨
  feature (refine_features w).2 name = Some (VBool true).
Proof.
  unfold refine_features, set_feature, subscript, as_dict. py_run.
  repeat case_match; simplify_eq; cbn [snd];
    rewrite ?feature_set_features; repeat case_decide; eauto.
Qed.

End InitFacts.

Section InitClaims.
Context `{Externals}.
Implicit Types (w : wrapper) (name : string).

(** Once the probe has returned, initialisation is the refinement of
    lines 235-240 run in the state the probe left. *)
Lemma init_after_probe w w1 :
  probe_server_version (cache_ado_properties w).2 = (Ok tt, w1) →
  init_connection_state w = refine_features w1.
Proof.
  intros Hprobe. unfold init_connection_state. py_run.
  destruct (cache_ado_properties_frame w) as (Hok & _).
  destruct (cache_ado_properties w) as [o p]. cbn [fst snd] in *.
  subst o. by rewrite Hprobe.
Qed.

(** Initialisation is the probe, then, if the probe returned, the
    refinement. *)
Lemma init_steps w :
  init_connection_state w
  = match probe_server_version (cache_ado_properties w).2 with
    | (Ok _, w1) => refine_features w1
    | (Raise e, w1) => (Raise e, w1)
    end.
Proof.
  unfold init_connection_state. py_run.
  destruct (cache_ado_properties_frame w) as (Hok & _).
  destruct (cache_ado_properties w) as [o p]. cbn [fst snd] in *.
  by subst o.
Qed.

(** With a dictionary under OPTIONS the refinement returns, and the
    nulls flag is decided by the option. *)
Lemma refine_features_runs w options :
  settings_dict w !! "OPTIONS" = Some (VDict options) →
  (refine_features w).1 = Ok tt ∧
  warnings (refine_features w).2 = warnings w ∧
  feature (refine_features w).2 "ignores_nulls_in_unique_constraints"
  = if truthy (dict_get options "allow_nulls_in_unique_constraints"
                 (VBool true))
    then Some (VBool true)
    else feature w "ignores_nulls_in_unique_constraints".
Proof.
  intros Ho. unfold refine_features, set_feature, subscript, as_dict.
  py_run.
  destruct (bool_decide (Database w = Pytds)); py_run;
    cbn [settings_dict set_features]; rewrite Ho;
    destruct (truthy _); cbn [fst snd warnings set_features];
    rewrite ?feature_set_features; repeat case_decide; done.
Qed.

(** On an instance with no attribute of its own, a flag of the class
    body reads as the class body has it, whatever the bases say. *)
Lemma class_default name v :
  dict_of DatabaseFeatures.class_body !! name = Some v →
  DatabaseFeatures.getattr inherited_features ∅ name = Some v.
Proof.
  intros Hbody. unfold DatabaseFeatures.getattr.
  rewrite (left_id_L ∅ (∪)). by apply lookup_union_Some_l.
Qed.

Lemma feature_ext w1 w2 name :
  features w1 = features w2 → feature w1 name = feature w2 name.
Proof. unfold feature. by intros ->. Qed.

(** C4: when the version getter answers a string whose major part
    [int] rejects, the probe issues the "unable to determine" warning
    and returns, leaving every flag as it was, and initialisation runs
    to its end; when the major part parses to a number below
    [VERSION_SQL2008], the same holds with the "no longer tested"
    deprecation warning.  Both under a warnings filter that does not
    turn the warning in question into an error. *)
Theorem version_probe_is_not_fatal w version major rest options :
  let p := (cache_ado_properties w).2 in
  get_dbms_version p = (Ok version, p) →
  split "." 2 version = major :: rest →
  settings_dict w !! "OPTIONS" = Some (VDict options) →
  (py_int major = None →
   warning_is_error DeprecationWarning unknown_version_message = false →
     ∃ w1 w',
       probe_server_version p = (Ok tt, w1) ∧
       features w1 = features w ∧
       warnings w1
       = warnings w ++ [(DeprecationWarning, unknown_version_message)] ∧
       init_connection_state w = (Ok tt, w') ∧
       warnings w' = warnings w1) ∧
  (∀ n, py_int major = Some n → n < VERSION_SQL2008 →
   warning_is_error DeprecationWarning old_version_message = false →
     ∃ w1 w',
       probe_server_version p = (Ok tt, w1) ∧
       features w1 = features w ∧
       warnings w1
       = warnings w ++ [(DeprecationWarning, old_version_message)] ∧
       init_connection_state w = (Ok tt, w') ∧
       warnings w' = warnings w1).
Proof.
  intros p Hget Hsplit Ho.
  destruct (cache_ado_properties_frame w) as (_ & Hf & Hs & _ & Hw).
  fold p in Hf, Hs, Hw.
  assert (∀ msg,
    probe_server_version p
    = (Ok tt, set_warnings (warnings p ++ [(DeprecationWarning, msg)]) p) →
    ∃ w1 w',
      probe_server_version p = (Ok tt, w1) ∧
      features w1 = features w ∧
      warnings w1 = warnings w ++ [(DeprecationWarning, msg)] ∧
      init_connection_state w = (Ok tt, w') ∧
      warnings w' = warnings w1) as Hcont.
  { intros msg Hprobe.
    set (w1 := set_warnings (warnings p ++ [(DeprecationWarning, msg)]) p)
      in *.
    destruct (refine_features_runs w1 options) as (Hret & Hwarn & _).
    { cbn [w1 settings_dict set_warnings]. by rewrite Hs. }
    exists w1, (refine_features w1).2. repeat split.
    - exact Hprobe.
    - exact Hf.
    - cbn [w1 warnings set_warnings]. by rewrite Hw.
    - rewrite (init_after_probe w w1 Hprobe).
      destruct (refine_features w1) as [o w']. cbn [fst snd] in *.
      by subst o.
    - exact Hwarn. }
  split.
  - intros Hint Hfilter. apply Hcont.
    rewrite (probe_unparsable p p version major rest Hget Hsplit Hint).
    by apply warn_returns.
  - intros n Hint Hlt Hfilter. apply Hcont.
    rewrite (probe_parsed p p version major rest n Hget Hsplit Hint).
    apply Z.ltb_lt in Hlt. rewrite Hlt. by apply warn_returns.
Qed.

(** C9: provided the version getter leaves the wrapper as it found it,
    every flag read after initialisation is what it was before or is
    [True]; so a flag that was [True] stays [True]. *)
Theorem refinement_only_widens w o w' name :
  let p := (cache_ado_properties w).2 in
  (get_dbms_version p).2 = p →
  init_connection_state w = (o, w') →
  (feature w' name = feature w name ∨ feature w' name = Some (VBool true)) ∧
  (feature w name = Some (VBool true) →
   feature w' name = Some (VBool true)).
Proof.
  intros p Hread Hinit.
  assert (feature w' name = feature w name ∨
          feature w' name = Some (VBool true)) as Hwiden.
  { destruct (cache_ado_properties_frame w) as (_ & Hf & _).
    destruct (probe_frame p) as (Hpf & _). rewrite Hread in Hpf.
    rewrite init_steps in Hinit.
    subst p. remember (cache_ado_properties w).2 as p eqn:Hp.
    destruct (probe_server_version p) as [[[]|e] w1]; cbn [snd] in *.
    - destruct (refine_features_widens w1 name) as [Hsame|Htrue].
      + left. rewrite Hinit in Hsame. cbn [snd] in Hsame.
        rewrite Hsame. apply feature_ext. congruence.
      + right. rewrite Hinit in Htrue. exact Htrue.
    - injection Hinit as <- <-. left. apply feature_ext. congruence. }
  split; [exact Hwiden|].
  intros Htrue. destruct Hwiden as [Hsame|Hset]; congruence.
Qed.

(** C10: the class default of the flag is [False]; under a warnings
    filter that does not turn deprecation warnings into errors,
    initialisation
    returns with the flag [True] when OPTIONS has no
    allow_nulls_in_unique_constraints, and when it has the key the flag
    becomes [True] for a true value and is left alone for a false one;
    so a flag that is not [True] afterwards means the option was given
    with a false value. *)
Theorem nulls_in_unique_constraints_default w version options :
  let p := (cache_ado_properties w).2 in
  let flag := "ignores_nulls_in_unique_constraints" in
  let key := "allow_nulls_in_unique_constraints" in
  get_dbms_version p = (Ok version, p) →
  (∀ message, warning_is_error DeprecationWarning message = false) →
  settings_dict w !! "OPTIONS" = Some (VDict options) →
  DatabaseFeatures.getattr inherited_features ∅ flag = Some (VBool false) ∧
  ∃ w',
    init_connection_state w = (Ok tt, w') ∧
    (options !! key = None → feature w' flag = Some (VBool true)) ∧
    (∀ v, options !! key = Some v →
          feature w' flag
          = if truthy v then Some (VBool true) else feature w flag) ∧
    (feature w' flag ≠ Some (VBool true) →
     ∃ v, options !! key = Some v ∧ truthy v = false).
Proof.
  intros p flag key Hget Hfilter Ho. split; [by apply class_default|].
  destruct (cache_ado_properties_frame w) as (_ & Hf & Hs & _).
  fold p in Hf, Hs.
  destruct (split_has_first "." 2 version) as (major & rest & Hsplit).
  assert (∃ w1, probe_server_version p = (Ok tt, w1) ∧
                features w1 = features w ∧
                settings_dict w1 = settings_dict w) as (w1 & Hprobe & Hf1 & Hs1).
  { destruct (py_int major) as [n|] eqn:Hint.
    - rewrite (probe_parsed p p version major rest n Hget Hsplit Hint).
      destruct (n <? VERSION_SQL2008); rewrite ?warn_returns by done;
        eexists; split; try reflexivity;
        cbn [features settings_dict set_warnings]; done.
    - rewrite (probe_unparsable p p version major rest Hget Hsplit Hint).
      rewrite warn_returns by done.
      eexists; split; [reflexivity|].
      cbn [features settings_dict set_warnings]; done. }
  destruct (refine_features_runs w1 options) as (Hret & _ & Hflag);
    [by rewrite Hs1|].
  fold flag key in Hflag.
  rewrite (feature_ext w1 w flag Hf1) in Hflag.
  exists (refine_features w1).2. split; [|split; [|split]].
  - rewrite (init_after_probe w w1 Hprobe).
    destruct (refine_features w1) as [o w']. cbn [fst snd] in *.
    by subst o.
  - intros Hnone. rewrite Hflag. unfold dict_get. by rewrite Hnone.
  - intros v Hv. rewrite Hflag. unfold dict_get. by rewrite Hv.
  - intros Hnot. rewrite Hflag in Hnot. unfold dict_get in Hnot.
    destruct (options !! key) as [v|]; [|done].
    exists v. split; [reflexivity|]. by destruct (truthy v).
Qed.

End InitClaims.

Section InitWitnesses.
Import Samples.

Lemma version_probe_is_not_fatal_witness :
  (∃ w', @init_connection_state (sample_externals "unknown") ado_wrapper
         = (Ok tt, w') ∧
         warnings w' = [(DeprecationWarning, unknown_version_message)]) ∧
  (∃ w', @init_connection_state (sample_externals "9.00.4035") ado_wrapper
         = (Ok tt, w') ∧
         warnings w' = [(DeprecationWarning, old_version_message)]).
Proof.
  split.
  - destruct (proj1 (@version_probe_is_not_fatal
                       (sample_externals "unknown") ado_wrapper
                       "unknown" "unknown" []
                       (dict_of [("failover_partner", VStr "db2");
                                 ("bogus_key", VStr "z")])
                       eq_refl eq_refl eq_refl) eq_refl eq_refl)
      as (w1 & w' & _ & _ & Hw1 & Hinit & Hw).
    exists w'. split; [exact Hinit|]. rewrite Hw, Hw1. reflexivity.
  - destruct (proj2 (@version_probe_is_not_fatal
                       (sample_externals "9.00.4035") ado_wrapper
                       "9.00.4035" "9" ["00"; "4035"]
                       (dict_of [("failover_partner", VStr "db2");
                                 ("bogus_key", VStr "z")])
                       eq_refl eq_refl eq_refl) 9 eq_refl eq_refl eq_refl)
      as (w1 & w' & _ & _ & Hw1 & Hinit & Hw).
    exists w'. split; [exact Hinit|]. rewrite Hw, Hw1. reflexivity.
Defined.

Lemma refinement_only_widens_witness :
  let E := sample_externals "" in
  let w := connected_wrapper 0x0A320000 (Ok good_cursor) in
  @feature E (@init_connection_state E w).2 "uses_savepoints"
  = Some (VBool true).
Proof.
  intros E w.
  apply (proj2 (@refinement_only_widens E w
                  (@init_connection_state E w).1
                  (@init_connection_state E w).2
                  "uses_savepoints" eq_refl (surjective_pairing _))).
  reflexivity.
Defined.

Lemma nulls_in_unique_constraints_default_witness :
  let E := sample_externals "" in
  let w := connected_wrapper 0x0A320000 (Ok good_cursor) in
  ∃ w', @init_connection_state E w = (Ok tt, w') ∧
        @feature E w "ignores_nulls_in_unique_constraints"
        = Some (VBool false) ∧
        @feature E w' "ignores_nulls_in_unique_constraints"
        = Some (VBool true).
Proof.
  intros E w.
  destruct (@nulls_in_unique_constraints_default E w "10.50"
              (dict_of [("failover_partner", VStr "db2");
                        ("bogus_key", VStr "z")]) eq_refl
              (λ _, eq_refl) eq_refl)
    as (_ & w' & Hinit & Habsent & _).
  exists w'. split; [exact Hinit|]. split; [reflexivity|].
  apply Habsent. reflexivity.
Defined.

End InitWitnesses.

(** ** The usability check *)

Section Usability.
Import Samples.
Implicit Types (w : wrapper).

(** The round trip does not touch the wrapper. *)
Lemma round_trip_frame w : (round_trip w).2 = w.
Proof.
  unfold round_trip, with_. py_run.
  destruct (connection w) as [c|]; [|done].
  destruct (cursor c) as [cur|]; [|done].
  by destruct (cm_enter (cur_manager cur)).
Qed.

Lemma is_usable_by_round_trip w :
  is_usable w = (Ok (returns (round_trip w).1), w).
Proof.
  unfold is_usable, try_except_all. py_run.
  pose proof (round_trip_frame w) as Hframe.
  destruct (round_trip w) as [[r|e] w1]; cbn [fst snd returns] in *;
    by subst w1.
Qed.

(** C5: [is_usable] always returns a boolean and never raises; the
    boolean is [True] exactly when the [with] block around the
    [SELECT 1] ran to its end.  On a cursor that does not swallow
    exceptions on leaving the block, a failing [execute] gives [False],
    whatever the exception, and a successful one gives [True] when the
    cursor closes. *)
Theorem is_usable_never_raises w :
  (∃ b, is_usable w = (Ok b, w)) ∧
  (returns (round_trip w).1 = true → is_usable w = (Ok true, w)) ∧
  (returns (round_trip w).1 = false → is_usable w = (Ok false, w)) ∧
  (∀ c cur,
     connection w = Some c →
     cursor c = Ok cur →
     cm_enter (cur_manager cur) = Ok tt →
     (∀ e, cur_execute cur "SELECT 1" = Raise e →
           cm_exit (cur_manager cur) (Some e) ≠ Ok true →
           is_usable w = (Ok false, w)) ∧
     (cur_execute cur "SELECT 1" = Ok tt →
      returns (cm_exit (cur_manager cur) None) = true →
      is_usable w = (Ok true, w))).
Proof.
  rewrite is_usable_by_round_trip.
  split; [eauto|]. split; [by intros ->|]. split; [by intros ->|].
  intros c cur Hc Hcur Henter.
  assert ((round_trip w).1
          = with_exit (cur_manager cur) (cur_execute cur "SELECT 1"))
    as ->.
  { unfold round_trip, with_. py_run. by rewrite Hc, Hcur, Henter. }
  split.
  - intros e -> Hexit. cbn [with_exit].
    destruct (cm_exit (cur_manager cur) (Some e)) as [[]|e']; done.
  - intros -> Hexit. cbn [with_exit].
    by destruct (cm_exit (cur_manager cur) None).
Qed.

Lemma is_usable_never_raises_witness :
  is_usable (connected_wrapper 0x0A320000 (Ok broken_cursor))
  = (Ok false, connected_wrapper 0x0A320000 (Ok broken_cursor)) ∧
  is_usable (connected_wrapper 0x0A320000 (Ok good_cursor))
  = (Ok true, connected_wrapper 0x0A320000 (Ok good_cursor)).
Proof.
  split.
  - refine (proj1 (proj2 (proj2 (proj2
              (is_usable_never_raises
                 (connected_wrapper 0x0A320000 (Ok broken_cursor)))))
              (pytds_connection 0x0A320000 (Ok broken_cursor))
              broken_cursor eq_refl eq_refl eq_refl) _ eq_refl _).
    discriminate.
  - exact (proj2 (proj2 (proj2 (proj2
             (is_usable_never_raises
                (connected_wrapper 0x0A320000 (Ok good_cursor)))))
             (pytds_connection 0x0A320000 (Ok good_cursor))
             good_cursor eq_refl eq_refl eq_refl) eq_refl eq_refl).
Defined.

End Usability.

(** ** The cursor wrapper *)

Module CursorWrapperFacts.
Import CursorWrapper.

Section Facts.
Context {C Row : Type} `{RawCursor C Row}.
Implicit Types (w : _CursorWrapper (C := C)) (c : C) (n : nat).

(** A bound method of the held cursor ends as the cursor's method
    does: the error wrapper has no part in it. *)
Lemma on_cursor_outcome {A} (m : M C A) w :
  (on_cursor m w).1 = (m (_cursor w)).1 ∧
  _cursor (on_cursor m w).2 = (m (_cursor w)).2 ∧
  _error_wrapper (on_cursor m w).2 = _error_wrapper w.
Proof. unfold on_cursor. by destruct (m (_cursor w)). Qed.

(** Until it has finished, the generator's [__next__] is one turn of
    the loop, given an error wrapper whose [__enter__] returns. *)
Lemma next_is_pull pos w :
  cm_enter (_error_wrapper w) = Ok tt →
  pos ≠ Finished →
  next {| gen_at := pos; gen_self := w |} = pull w.
Proof.
  intros Henter Hpos. unfold next. cbn [gen_at gen_self].
  destruct pos; [by rewrite Henter|done|done].
Qed.

(** A consumer of the wrapper sees the rows a consumer of the raw
    cursor would see, and is left with the error wrapper's verdict on
    the way the raw cursor's loop ended. *)
Lemma consume_through_wrapper ew n : ∀ pos c rows e c',
  cm_enter ew = Ok tt →
  pos ≠ Finished →
  consume raw_next n c = (rows, e, c') →
  ∃ pos',
    consume next n
      {| gen_at := pos;
         gen_self := {| _cursor := c; _error_wrapper := ew |} |}
    = (rows, through_wrapper ew e,
       {| gen_at := pos';
          gen_self := {| _cursor := c'; _error_wrapper := ew |} |}) ∧
    (e ≠ Pending → pos' = Finished).
Proof.
  induction n as [|n IH]; intros pos c rows e c' Henter Hpos Hraw.
  { injection Hraw as <- <- <-. by exists pos. }
  cbn [consume] in *.
  rewrite next_is_pull by done. unfold pull. cbn [_cursor _error_wrapper].
  destruct (raw_next c) as [[[item|]|e0] c1].
  - destruct (consume raw_next n c1) as [[rows1 end1] c2] eqn:Hrest.
    injection Hraw as <- <- <-.
    destruct (IH Suspended c1 rows1 end1 c2) as (pos' & Hgen & Hfin);
      [done..|].
    exists pos'. split; [|done].
    unfold set_cursor. cbn [_error_wrapper]. by rewrite Hgen.
  - injection Hraw as <- <- <-. exists Finished. split; [|done].
    cbn [through_wrapper]. by destruct (with_exit ew (Ok ())).
  - injection Hraw as <- <- <-. exists Finished. split; [|done].
    cbn [through_wrapper]. by destruct (with_exit ew (Raise e0)).
Qed.

(** C6, amended: [execute] and [fetchall] of the wrapper end exactly as
    the raw cursor's methods do, exceptions included; iteration yields
    the raw cursor's rows, and an exception raised while pulling a row
    is handed to the error wrapper, whose verdict is what reaches the
    consumer: the exception the error wrapper raises in place of the raw
    one, the raw exception when it lets it pass, the end of the
    iteration when it swallows it. *)
Theorem iteration_errors_go_to_error_wrapper w :
  (∀ sql params,
     (execute sql params w).1 = (raw_execute sql params (_cursor w)).1) ∧
  (fetchall w).1 = (raw_fetchall (_cursor w)).1 ∧
  (cm_enter (_error_wrapper w) = Ok tt →
   ∀ n rows e c',
     consume raw_next n (_cursor w) = (rows, e, c') →
     ∃ pos',
       consume next n (__iter__ w)
       = (rows, through_wrapper (_error_wrapper w) e,
          {| gen_at := pos'; gen_self := set_cursor c' w |})) ∧
  (cm_enter (_error_wrapper w) = Ok tt →
   ∀ n rows e c',
     consume raw_next n (_cursor w) = (rows, Failed e, c') →
     let finished := {| gen_at := Finished; gen_self := set_cursor c' w |} in
     (∀ e', cm_exit (_error_wrapper w) (Some e) = Raise e' →
            consume next n (__iter__ w) = (rows, Failed e', finished)) ∧
     (cm_exit (_error_wrapper w) (Some e) = Ok false →
      consume next n (__iter__ w) = (rows, Failed e, finished)) ∧
     (cm_exit (_error_wrapper w) (Some e) = Ok true →
      consume next n (__iter__ w) = (rows, Exhausted, finished))).
Proof.
  split; [|split; [|split]].
  - intros sql params. apply on_cursor_outcome.
  - apply on_cursor_outcome.
  - intros Henter n rows e c' Hraw.
    destruct w as [c ew]. cbn [_cursor _error_wrapper] in *.
    destruct (consume_through_wrapper ew n Created c rows e c')
      as (pos' & Hgen & _); [done..|].
    by exists pos'.
  - intros Henter n rows e c' Hraw finished. subst finished.
    destruct w as [c ew]. cbn [_cursor _error_wrapper] in *.
    destruct (consume_through_wrapper ew n Created c rows (Failed e) c')
      as (pos' & Hgen & Hfin); [done..|].
    rewrite Hfin in Hgen by done.
    unfold __iter__. rewrite Hgen. cbn [through_wrapper with_exit].
    repeat split; [intros e' Hexit|intros Hexit..]; by rewrite Hexit.
Qed.

End Facts.

(** C6, as stated, fails: behind an error wrapper that re-raises driver
    errors under the framework's class of the same name and lets other
    exceptions pass, a driver error met while pulling the third row
    reaches the consumer as an [OperationalError], which is not of the
    [InterfaceError] class, and an exception that is not the driver's
    reaches the consumer as it was raised. *)
Lemma iteration_error_is_not_always_InterfaceError :
  (∃ e g,
     consume next 5 (__iter__ Samples.by_name_cursor_wrapper)
     = ([1; 2], Failed e, g) ∧
     isinstance e DjangoInterfaceError = false) ∧
  (∃ g,
     consume next 5 (__iter__ Samples.decoding_cursor_wrapper)
     = ([1; 2], Failed Samples.decoding_error, g) ∧
     isinstance Samples.decoding_error DjangoInterfaceError = false).
Proof.
  split.
  - exists (mk_exn Samples.DjangoOperationalError "connection reset").
    eexists. split; reflexivity.
  - eexists. split; reflexivity.
Qed.

Lemma iteration_errors_go_to_error_wrapper_witness :
  consume next 5 (__iter__ Samples.by_name_cursor_wrapper)
  = ([1; 2],
     Failed (mk_exn Samples.DjangoOperationalError "connection reset"),
     {| gen_at := Finished;
        gen_self := set_cursor [] Samples.by_name_cursor_wrapper |}).
Proof.
  exact (proj1 (proj2 (proj2 (proj2 (iteration_errors_go_to_error_wrapper
                                        Samples.by_name_cursor_wrapper)))
                  eq_refl 5%nat [1; 2] Samples.driver_error
                  (@nil (outcome Z)) eq_refl)
           (mk_exn Samples.DjangoOperationalError "connection reset")
           eq_refl).
Defined.

End CursorWrapperFacts.

(** * Further properties of the module *)

(** ** The pytds version getter and the probe *)

Section VersionBytes.
Context `{Externals}.
Implicit Types (w : wrapper) (pv : Z).

(** Masking a byte and shifting it down is division and remainder. *)
Lemma byte_at pv k :
  0 ≤ k →
  Z.shiftr (Z.land pv (Z.shiftl 255 k)) k = (pv / 2 ^ k) mod 256.
Proof.
  intros Hk. rewrite Z.shiftr_land, Z.shiftr_shiftl_l by lia.
  rewrite Z.sub_diag, Z.shiftl_0_r.
  change 255 with (Z.ones 8). rewrite Z.land_ones by lia.
  by rewrite Z.shiftr_div_pow2 by lia.
Qed.

Lemma rev_app_append s1 s2 t :
  String.rev_app s1 s2 +:+ t = String.rev_app s1 (s2 +:+ t).
Proof. revert s2. induction s1 as [|c s1 IH]; intros s2; cbn; [done|apply IH]. Qed.

(** Splitting a string whose first separator comes after [s]. *)
Lemma split_go_prefix sep n acc s t :
  forallb (λ c, negb (Ascii.eqb c sep)) (list_ascii_of_string s) = true →
  split_go sep (S n) acc (s +:+ String sep t)
  = (String.rev acc +:+ s) :: split_go sep n "" t.
Proof.
  revert acc. induction s as [|c s IH]; intros acc Hs.
  - change ("" +:+ String sep t) with (String sep t).
    cbn [split_go]. rewrite Ascii.eqb_refl. f_equal.
    generalize (String.rev acc). intros r.
    induction r as [|a r IHr]; [done|].
    change (String a r +:+ "") with (String a (r +:+ "")). by rewrite <- IHr.
  - change (String c s +:+ String sep t)
      with (String c (s +:+ String sep t)).
    cbn [split_go list_ascii_of_string forallb] in *.
    apply andb_true_iff in Hs as [Hc Hs].
    apply negb_true_iff in Hc. rewrite Hc, IH by done. f_equal.
    unfold String.rev. cbn [String.rev_app]. by rewrite !rev_app_append.
Qed.

(** The decimal numerals of the bytes have no dot, and [ascii_int] reads
    them back. *)
Lemma byte_numerals n :
  0 ≤ n < 256 →
  forallb (λ c, negb (Ascii.eqb c "."))
    (list_ascii_of_string (pretty n)) = true ∧
  ascii_int (pretty n) = Some n.
Proof.
  intros Hn.
  assert (forallb (λ n,
            forallb (λ c, negb (Ascii.eqb c "."))
              (list_ascii_of_string (pretty n)) &&
            bool_decide (ascii_int (pretty n) = Some n))
            (seqZ 0 256) = true) as Hall by (vm_compute; reflexivity).
  rewrite forallb_forall in Hall.
  specialize (Hall n). rewrite <- list_elem_of_In, elem_of_seqZ in Hall.
  apply andb_true_iff in Hall as [Hdot Hint]; [|lia].
  by apply bool_decide_eq_true_1 in Hint.
Qed.

(** The getter on an open connection, whatever [make_connection] says. *)
Lemma get_dbms_version_pytds_open make_connection w c pv :
  connection w = Some c →
  product_version c = Some pv →
  get_dbms_version_pytds make_connection w
  = (Ok (pretty ((pv / 2 ^ 24) mod 256) +:+ "." +:+
         pretty ((pv / 2 ^ 16) mod 256)), w).
Proof.
  intros Hc Hpv. unfold get_dbms_version_pytds. py_run.
  rewrite Hc. rewrite bool_decide_eq_true_2 by eauto.
  cbn [negb andb]. py_run. rewrite Hc. cbn. rewrite Hpv.
  change 4278190080 with (Z.shiftl 255 24).
  change 16711680 with (Z.shiftl 255 16).
  by rewrite !byte_at by lia.
Qed.

(** X1: on an open connection the pytds getter answers "major.minor",
    where major and minor are the bytes of [product_version] at bits
    24-31 and 16-23, each between 0 and 255 for every integer, negative
    ones included; it does not call [connect] and leaves the wrapper as
    it is. *)
Theorem pytds_version_is_two_bytes make_connection w c pv :
  connection w = Some c →
  product_version c = Some pv →
  let major := (pv / 2 ^ 24) mod 256 in
  let minor := (pv / 2 ^ 16) mod 256 in
  get_dbms_version_pytds make_connection w
  = (Ok (pretty major +:+ "." +:+ pretty minor), w) ∧
  0 ≤ major < 256 ∧ 0 ≤ minor < 256.
Proof.
  intros Hc Hpv major minor. split.
  - by apply get_dbms_version_pytds_open with c.
  - split; apply Z.mod_pos_bound; lia.
Qed.

(** X2: with pytds on an open connection the probe never reports an
    undeterminable version, given an [int] that reads the decimal
    numerals of the bytes.  With a major byte at or above
    [VERSION_SQL2008] it returns and issues nothing; below, it issues
    the "no longer tested" warning and nothing else: the probe returns
    with that warning on record, or, under a filter that turns it into
    an error, raises it and leaves the wrapper as it was. *)
Theorem pytds_probe_always_parses w c pv :
  Database w = Pytds →
  connection w = Some c →
  product_version c = Some pv →
  (∀ n, 0 ≤ n < 256 → py_int (pretty n) = Some n) →
  probe_server_version w
  = if (pv / 2 ^ 24) mod 256 <? VERSION_SQL2008
    then if warning_is_error DeprecationWarning old_version_message
         then (Raise (mk_exn DeprecationWarning old_version_message), w)
         else (Ok tt,
               set_warnings
                 (warnings w ++ [(DeprecationWarning, old_version_message)])
                 w)
    else (Ok tt, w).
Proof.
  intros Hdb Hc Hpv Hint.
  set (major := (pv / 2 ^ 24) mod 256).
  set (minor := (pv / 2 ^ 16) mod 256).
  assert (0 ≤ major < 256) as Hmajor by (apply Z.mod_pos_bound; lia).
  assert (get_dbms_version w
          = (Ok (pretty major +:+ "." +:+ pretty minor), w)) as Hget.
  { unfold get_dbms_version. py_run. rewrite Hdb.
    rewrite bool_decide_eq_true_2 by done.
    by apply get_dbms_version_pytds_open with c. }
  destruct (byte_numerals major Hmajor) as [Hdot _].
  pose proof (split_go_prefix "." 1 "" (pretty major) (pretty minor) Hdot)
    as Hsplit.
  rewrite (probe_parsed w w _ (pretty major)
             (split_go "." 1 "" (pretty minor)) major Hget).
  - destruct (major <? VERSION_SQL2008); [|done].
    destruct (warning_is_error DeprecationWarning old_version_message)
      eqn:Hfilter; [by apply warn_raises|by apply warn_returns].
  - exact Hsplit.
  - by apply Hint.
Qed.

End VersionBytes.

Section VersionBytesWitnesses.
Import Samples.

Lemma pytds_version_is_two_bytes_witness :
  @get_dbms_version_pytds (sample_externals "") false
    (connected_wrapper 0x0A320000 (Ok good_cursor))
  = (Ok "10.50", connected_wrapper 0x0A320000 (Ok good_cursor)).
Proof.
  exact (proj1 (@pytds_version_is_two_bytes (sample_externals "") false
                  (connected_wrapper 0x0A320000 (Ok good_cursor))
                  (pytds_connection 0x0A320000 (Ok good_cursor))
                  0x0A320000 eq_refl eq_refl)).
Defined.

Lemma pytds_probe_always_parses_witness :
  (@probe_server_version (sample_externals "")
     (connected_wrapper 0x09000000 (Ok good_cursor))).1 = Ok tt ∧
  @probe_server_version (strict_externals "")
    (connected_wrapper 0x09000000 (Ok good_cursor))
  = (Raise (mk_exn DeprecationWarning old_version_message),
     connected_wrapper 0x09000000 (Ok good_cursor)).
Proof.
  split.
  - rewrite (@pytds_probe_always_parses (sample_externals "")
               (connected_wrapper 0x09000000 (Ok good_cursor))
               (pytds_connection 0x09000000 (Ok good_cursor))
               0x09000000 eq_refl eq_refl eq_refl
               (λ n Hn, proj2 (byte_numerals n Hn))).
    reflexivity.
  - rewrite (@pytds_probe_always_parses (strict_externals "")
               (connected_wrapper 0x09000000 (Ok good_cursor))
               (pytds_connection 0x09000000 (Ok good_cursor))
               0x09000000 eq_refl eq_refl eq_refl
               (λ n Hn, proj2 (byte_numerals n Hn))).
    reflexivity.
Defined.

End VersionBytesWitnesses.

(** ** Connection initialisation, further *)

Section InitFurther.
Context `{Externals}.
Implicit Types (w : wrapper) (name : string).

(** The flags [refine_features] leaves depend on the transport, the
    settings and the flags it starts from, and on nothing else. *)
Lemma refine_features_ext w1 w2 :
  Database w1 = Database w2 →
  settings_dict w1 = settings_dict w2 →
  features w1 = features w2 →
  (refine_features w1).1 = (refine_features w2).1 ∧
  features (refine_features w1).2 = features (refine_features w2).2.
Proof.
  destruct w1, w2. cbn. intros -> -> ->.
  unfold refine_features, set_feature, subscript, as_dict. py_run.
  cbn [Database settings_dict features set_features].
  repeat (case_match; simplify_eq;
          cbn [Database settings_dict features set_features fst snd] in *);
    done.
Qed.

(** What [refine_features] does not touch. *)
Lemma refine_features_frame w :
  Database (refine_features w).2 = Database w ∧
  settings_dict (refine_features w).2 = settings_dict w ∧
  connection (refine_features w).2 = connection w ∧
  warnings (refine_features w).2 = warnings w.
Proof.
  unfold refine_features, set_feature, subscript, as_dict. py_run.
  repeat (case_match; simplify_eq); done.
Qed.

(** The probe raises what the getter raised and the [except] clause
    does not name, or what a call of [warnings.warn] raised; apart from
    that it returns. *)
Lemma probe_outcome w :
  match get_dbms_version w with
  | (Ok _, w1) =>
      ∃ issued : option string,
        probe_server_version w
        = match issued with
          | Some message => warn message DeprecationWarning w1
          | None => (Ok tt, w1)
          end
  | (Raise e, w1) =>
      if isinstance e IndexError || isinstance e ValueError
      then probe_server_version w
           = warn unknown_version_message DeprecationWarning w1
      else probe_server_version w = (Raise e, w1)
  end.
Proof.
  unfold probe_server_version, try_except_else, index, int. py_run.
  destruct (get_dbms_version w) as [[version|e] w1].
  - destruct (split_has_first "." 2 version) as (major & rest & ->).
    cbn [lookup list_lookup].
    destruct (py_int major) as [n|].
    + destruct (n <? VERSION_SQL2008);
        [by exists (Some old_version_message)|by exists None].
    + by exists (Some unknown_version_message).
  - cbn [existsb]. rewrite orb_false_r.
    by destruct (isinstance e IndexError || isinstance e ValueError).
Qed.

(** Under a filter that raises no deprecation warning the probe returns
    whenever the getter does. *)
Lemma probe_returns w version w1 :
  get_dbms_version w = (Ok version, w1) →
  (∀ message, warning_is_error DeprecationWarning message = false) →
  (probe_server_version w).1 = Ok tt.
Proof.
  intros Hget Hfilter. pose proof (probe_outcome w) as Hprobe.
  rewrite Hget in Hprobe. destruct Hprobe as [[message|] ->]; [|done].
  by rewrite warn_returns.
Qed.

(** X3: an exception of the version getter that is neither an
    [IndexError] nor a [ValueError] leaves [init_connection_state] as it
    is: no warning is issued and no flag is refined after it.  A
    [ValueError] or [IndexError] raised by the getter itself is taken for
    an unparsable version: the probe goes on with the "unable to
    determine" warning, after which initialisation is the refinement,
    unless the filter turns that warning into an error, which then is
    what initialisation raises. *)
Theorem getter_failure_escapes w e w1 :
  get_dbms_version (cache_ado_properties w).2 = (Raise e, w1) →
  (isinstance e IndexError = false → isinstance e ValueError = false →
   init_connection_state w = (Raise e, w1)) ∧
  (isinstance e IndexError || isinstance e ValueError = true →
   (warning_is_error DeprecationWarning unknown_version_message = false →
    init_connection_state w
    = refine_features
        (set_warnings (warnings w1 ++
           [(DeprecationWarning, unknown_version_message)]) w1)) ∧
   (warning_is_error DeprecationWarning unknown_version_message = true →
    init_connection_state w
    = (Raise (mk_exn DeprecationWarning unknown_version_message), w1))).
Proof.
  intros Hget.
  pose proof (probe_outcome (cache_ado_properties w).2) as Hprobe.
  rewrite Hget in Hprobe. split.
  - intros Hi Hv. rewrite Hi, Hv in Hprobe. cbn [orb] in Hprobe.
    by rewrite init_steps, Hprobe.
  - intros Hcaught. rewrite Hcaught in Hprobe. split; intros Hfilter.
    + by rewrite init_steps, Hprobe, warn_returns.
    + by rewrite init_steps, Hprobe, warn_raises.
Qed.

(** X4: without an OPTIONS key in the settings, and under a filter that
    raises no deprecation warning, initialisation fails with [KeyError]
    at line 239, after the pytds flags of lines 236-238 have been
    assigned: with pytds both are [True] in the state the exception
    leaves, with ado no flag has changed. *)
Theorem init_without_options w version :
  let p := (cache_ado_properties w).2 in
  get_dbms_version p = (Ok version, p) →
  (∀ message, warning_is_error DeprecationWarning message = false) →
  settings_dict w !! "OPTIONS" = None →
  ∃ w',
    init_connection_state w = (Raise (mk_exn KeyError "OPTIONS"), w') ∧
    (Database w = Pytds →
     feature w' "supports_paramstyle_pyformat" = Some (VBool true) ∧
     feature w' "supports_microsecond_precision" = Some (VBool true)) ∧
    (Database w ≠ Pytds → features w' = features w).
Proof.
  intros p Hget Hfilter Ho.
  destruct (cache_ado_properties_frame w) as (_ & Hf & Hs & Hd & _).
  fold p in Hf, Hs, Hd.
  pose proof (probe_returns p version p Hget Hfilter) as Hret.
  destruct (probe_frame p) as (Hpf & Hps & Hpd).
  rewrite Hget in Hpf, Hps, Hpd. cbn [snd] in *.
  rewrite init_steps. fold p.
  destruct (probe_server_version p) as [[[]|e] w1]; [|discriminate Hret].
  cbn [snd] in *.
  unfold refine_features, set_feature, subscript, as_dict. py_run.
  rewrite Hpd, Hd.
  destruct (bool_decide (Database w = Pytds)) eqn:Hdb; py_run;
    cbn [settings_dict set_features]; rewrite Hps, Hs, Ho;
    eexists; (split; [reflexivity|]).
  - split; [|by apply bool_decide_eq_true_1 in Hdb].
    intros _. rewrite !feature_set_features.
    split; repeat case_decide; done.
  - split; [by apply bool_decide_eq_false_1 in Hdb|].
    intros _. congruence.
Qed.

(** X5: initialisation assigns three flags at most.  Every other flag
    reads afterwards as before, and on the ado transport the two pytds
    flags do too. *)
Theorem init_leaves_other_flags w o w' name :
  let p := (cache_ado_properties w).2 in
  (get_dbms_version p).2 = p →
  init_connection_state w = (o, w') →
  name ≠ "ignores_nulls_in_unique_constraints" →
  (Database w ≠ Pytds ∨
   (name ≠ "supports_paramstyle_pyformat" ∧
    name ≠ "supports_microsecond_precision")) →
  feature w' name = feature w name.
Proof.
  intros p Hread Hinit Hnulls Hother.
  destruct (cache_ado_properties_frame w) as (_ & Hf & Hs & Hd & _).
  fold p in Hf, Hs, Hd.
  destruct (probe_frame p) as (Hpf & Hps & Hpd).
  rewrite Hread in Hpf, Hpd.
  rewrite init_steps in Hinit. fold p in Hinit.
  destruct (probe_server_version p) as [[[]|e] w1]; cbn [snd] in *.
  - transitivity (feature w1 name); [|apply feature_ext; congruence].
    replace w' with (refine_features w1).2 by by rewrite Hinit.
    unfold refine_features, set_feature, subscript, as_dict. py_run.
    rewrite Hpd, Hd.
    destruct (bool_decide (Database w = Pytds)) eqn:Hdb; py_run.
    + apply bool_decide_eq_true_1 in Hdb.
      destruct Hother as [?|[Hp Hm]]; [done|].
      repeat (case_match; simplify_eq; cbn [snd]);
        rewrite ?feature_set_features; repeat case_decide; done.
    + repeat (case_match; simplify_eq; cbn [snd]);
        rewrite ?feature_set_features; repeat case_decide; done.
  - injection Hinit as <- <-. apply feature_ext. congruence.
Qed.

End InitFurther.

Section InitFurtherWitnesses.
Import Samples.

Lemma getter_failure_escapes_witness :
  @init_connection_state (failing_externals com_error) ado_wrapper
  = (Raise com_error, ado_wrapper) ∧
  (@init_connection_state
     (failing_externals (mk_exn ValueError "no version")) ado_wrapper).1
  = Ok tt.
Proof.
  split.
  - apply (proj1 (@getter_failure_escapes (failing_externals com_error)
                    ado_wrapper com_error ado_wrapper eq_refl));
      reflexivity.
  - rewrite (proj1 (proj2 (@getter_failure_escapes
                             (failing_externals
                                (mk_exn ValueError "no version"))
                             ado_wrapper (mk_exn ValueError "no version")
                             ado_wrapper eq_refl) eq_refl) eq_refl).
    reflexivity.
Defined.

Lemma init_without_options_witness :
  ∃ w', @init_connection_state (sample_externals "") bare_wrapper
        = (Raise (mk_exn KeyError "OPTIONS"), w') ∧
        @feature (sample_externals "") w' "supports_paramstyle_pyformat"
        = Some (VBool true).
Proof.
  destruct (@init_without_options (sample_externals "") bare_wrapper "10.50"
              eq_refl (λ _, eq_refl) eq_refl) as (w' & Hinit & Hpytds & _).
  exists w'. split; [exact Hinit|]. apply Hpytds. reflexivity.
Defined.

Lemma init_leaves_other_flags_witness :
  let E := sample_externals "" in
  let w := connected_wrapper 0x0A320000 (Ok good_cursor) in
  @feature E (@init_connection_state E w).2 "supports_timezones"
  = Some (VBool false).
Proof.
  intros E w.
  rewrite (@init_leaves_other_flags E w
             (@init_connection_state E w).1 (@init_connection_state E w).2
             "supports_timezones" eq_refl (surjective_pairing _)).
  - reflexivity.
  - discriminate.
  - right. split; discriminate.
Defined.

End InitFurtherWitnesses.

Section InitTwice.
Context `{Externals}.
Implicit Types (w : wrapper) (name : string).

(** Running the refinement on its own result changes nothing more. *)
Lemma refine_features_idem w :
  (refine_features (refine_features w).2).1 = (refine_features w).1 ∧
  features (refine_features (refine_features w).2).2
  = features (refine_features w).2.
Proof.
  unfold refine_features, set_feature, subscript, as_dict. py_run.
  destruct (bool_decide (Database w = Pytds)) eqn:Hdb; py_run;
    cbn [settings_dict set_features];
    destruct (settings_dict w !! "OPTIONS") as [[]|] eqn:Ho;
    repeat first
      [ progress py_run
      | progress cbn [fst snd Database settings_dict features set_features]
      | progress rewrite ?Hdb, ?Ho
      | match goal with
        | Ht : truthy ?v = _ |- context [truthy ?v] => rewrite Ht
        | |- context [truthy ?v] => destruct (truthy v) eqn:?
        end ];
    (split; [done|]);
    apply map_eq; intros i; rewrite ?lookup_insert;
    repeat case_decide; done.
Qed.

(** The probe keeps the connection the getter left. *)
Lemma probe_keeps_connection w :
  connection (probe_server_version w).2 = connection (get_dbms_version w).2.
Proof.
  pose proof (probe_outcome w) as Hprobe.
  destruct (get_dbms_version w) as [[version|e] w1]; cbn [snd].
  - destruct Hprobe as [[message|] ->]; [|done].
    by destruct (warn_frame message DeprecationWarning w1) as (_ & _ & _ & ?).
  - destruct (isinstance e IndexError || isinstance e ValueError);
      rewrite Hprobe; [|done].
    by destruct (warn_frame unknown_version_message DeprecationWarning w1)
      as (_ & _ & _ & ?).
Qed.

(** Caching the ado properties keeps the connection open and its
    product version. *)
Lemma cache_keeps_version w c :
  connection w = Some c →
  ∃ c', connection (cache_ado_properties w).2 = Some c' ∧
        product_version c' = product_version c.
Proof.
  intros Hc. unfold cache_ado_properties. py_run. rewrite Hc.
  destruct (adoConn c); eauto.
Qed.

(** With pytds on an open connection the product version decides what
    the probe issues. *)
Lemma pytds_probe_verdict pv :
  ∃ issued : option string,
    ∀ w c,
      Database w = Pytds →
      connection w = Some c →
      product_version c = Some pv →
      probe_server_version w
      = match issued with
        | Some message => warn message DeprecationWarning w
        | None => (Ok tt, w)
        end.
Proof.
  set (version := pretty (Z.shiftr (Z.land pv 0xff000000) 24) +:+ "." +:+
                  pretty (Z.shiftr (Z.land pv 0xff0000) 16)).
  destruct (split_has_first "." 2 version) as (major & rest & Hsplit).
  destruct (py_int major) as [n|] eqn:Hint.
  - destruct (n <? VERSION_SQL2008) eqn:Hlt.
    + exists (Some old_version_message). intros w c Hdb Hc Hpv.
      rewrite (probe_parsed w w version major rest n); [by rewrite Hlt|..];
        [|done..].
      by apply get_dbms_version_pytds_reads with c.
    + exists None. intros w c Hdb Hc Hpv.
      rewrite (probe_parsed w w version major rest n); [by rewrite Hlt|..];
        [|done..].
      by apply get_dbms_version_pytds_reads with c.
  - exists (Some unknown_version_message). intros w c Hdb Hc Hpv.
    apply (probe_unparsable w w version major rest); [|done..].
    by apply get_dbms_version_pytds_reads with c.
Qed.

(** So it decides how initialisation goes on: it raises a warning the
    filter turns into an error, leaving the flags alone, or it is the
    refinement run on a wrapper with the same transport, settings, flags
    and server version. *)
Lemma pytds_init_verdict pv :
  ∃ raised : option exn,
    ∀ w c,
      Database w = Pytds →
      connection w = Some c →
      product_version c = Some pv →
      match raised with
      | Some e =>
          (init_connection_state w).1 = Raise e ∧
          features (init_connection_state w).2 = features w ∧
          Database (init_connection_state w).2 = Database w ∧
          ∃ c1, connection (init_connection_state w).2 = Some c1 ∧
                product_version c1 = Some pv
      | None =>
          ∃ w1 c1,
            init_connection_state w = refine_features w1 ∧
            Database w1 = Database w ∧
            settings_dict w1 = settings_dict w ∧
            features w1 = features w ∧
            connection w1 = Some c1 ∧
            product_version c1 = Some pv
      end.
Proof.
  destruct (pytds_probe_verdict pv) as [issued Hprobe].
  exists (match issued with
          | Some message =>
              if warning_is_error DeprecationWarning message
              then Some (mk_exn DeprecationWarning message) else None
          | None => None
          end).
  intros w c Hdb Hc Hpv.
  destruct (cache_ado_properties_frame w) as (_ & Hf & Hs & Hd & _).
  destruct (cache_keeps_version w c Hc) as (c1 & Hc1 & Hpv1).
  set (p := (cache_ado_properties w).2) in *.
  specialize (Hprobe p c1). rewrite init_steps. fold p.
  rewrite Hprobe by congruence.
  destruct issued as [message|].
  - destruct (warning_is_error DeprecationWarning message) eqn:Hfilter.
    + rewrite warn_raises by done. cbn [fst snd].
      repeat split; [congruence..|]. exists c1. split; congruence.
    + rewrite warn_returns by done.
      eexists _, c1. split; [reflexivity|].
      cbn [Database settings_dict features connection set_warnings].
      repeat split; congruence.
  - exists p, c1. repeat split; congruence.
Qed.

(** X6: with pytds on an open connection, initialising a second time
    ends as the first time did and leaves the flags of the first. *)
Theorem init_twice_same_flags w c pv :
  Database w = Pytds →
  connection w = Some c →
  product_version c = Some pv →
  (init_connection_state (init_connection_state w).2).1
  = (init_connection_state w).1 ∧
  features (init_connection_state (init_connection_state w).2).2
  = features (init_connection_state w).2.
Proof.
  intros Hdb Hc Hpv.
  destruct (pytds_init_verdict pv) as [[e|] Hverdict].
  - destruct (Hverdict w c) as (Ho & Hf & Hd & c1 & Hc1 & Hpv1); [done..|].
    destruct (Hverdict (init_connection_state w).2 c1)
      as (Ho2 & Hf2 & _); [congruence..|].
    split; congruence.
  - destruct (Hverdict w c) as
      (w1 & c1 & -> & Hd1 & Hs1 & Hf1 & Hc1 & Hpv1); [done..|].
    destruct (refine_features_frame w1) as (Hd2 & Hs2 & Hc2 & _).
    destruct (Hverdict (refine_features w1).2 c1) as
      (w3 & c3 & -> & Hd3 & Hs3 & Hf3 & _); [congruence..|].
    destruct (refine_features_ext w3 (refine_features w1).2) as [Ho Hf];
      [done..|].
    destruct (refine_features_idem w1) as [Ho' Hf'].
    split; congruence.
Qed.

(** Lookups in [dict(pairs)]: a name not among the later pairs keeps the
    value bound so far, and the names bound are those of the pairs. *)
Lemma dict_fold_lookup_notin (l : list (string * value))
    (d : gmap string value) name :
  name ∉ l.*1 →
  foldl (λ (d : gmap string value) kv, <[kv.1 := kv.2]> d) d l !! name
  = d !! name.
Proof.
  revert d. induction l as [|[k v] l IH]; intros d Hnot; [done|].
  cbn in *. apply not_elem_of_cons in Hnot as [Hk Hl].
  rewrite IH by done. by rewrite lookup_insert_ne.
Qed.

Lemma dict_fold_dom (l : list (string * value)) (d : gmap string value) :
  dom (foldl (λ (d : gmap string value) kv, <[kv.1 := kv.2]> d) d l)
  = dom d ∪ list_to_set l.*1.
Proof.
  revert d. induction l as [|[k v] l IH]; intros d; cbn.
  - set_solver.
  - rewrite IH, dom_insert_L. set_solver.
Qed.

(** X7: on a connection with an [adoConn], initialisation's first step
    stores under [adoConnProperties] a dictionary that has exactly the
    names of [adoConn.Properties], each with the value of its last
    occurrence in the collection; a connection without [adoConn] is
    left as it is. *)
Theorem ado_properties_cached w c :
  connection w = Some c →
  (adoConn c = None → (cache_ado_properties w).2 = w) ∧
  (∀ properties,
     adoConn c = Some properties →
     ∃ c' cached,
       connection (cache_ado_properties w).2 = Some c' ∧
       adoConnProperties c' = Some cached ∧
       dom cached = list_to_set properties.*1 ∧
       ∀ before name v after,
         properties = before ++ (name, v) :: after →
         name ∉ after.*1 →
         cached !! name = Some v).
Proof.
  intros Hc. unfold cache_ado_properties. py_run. rewrite Hc. split.
  - by intros ->.
  - intros properties ->. cbn [snd connection set_connection].
    eexists _, _. split; [reflexivity|].
    cbn [adoConnProperties set_adoConnProperties]. split; [reflexivity|].
    unfold dict_of. split.
    + rewrite dict_fold_dom. set_solver.
    + intros before name v after -> Hlast.
      rewrite foldl_app. cbn [foldl fst snd].
      rewrite dict_fold_lookup_notin by done. apply lookup_insert_eq.
Qed.

End InitTwice.

Section InitTwiceWitnesses.
Import Samples.

Lemma init_twice_same_flags_witness :
  let E := sample_externals "" in
  let w := connected_wrapper 0x0A320000 (Ok good_cursor) in
  features (@init_connection_state E (@init_connection_state E w).2).2
  = features (@init_connection_state E w).2.
Proof.
  intros E w.
  exact (proj2 (@init_twice_same_flags E w
                  (pytds_connection 0x0A320000 (Ok good_cursor))
                  0x0A320000 eq_refl eq_refl eq_refl)).
Defined.

Lemma ado_properties_cached_witness :
  let E := sample_externals "" in
  let w := set_connection (Some ado_connection) ado_wrapper in
  ∃ c' cached,
    connection (@cache_ado_properties w).2 = Some c' ∧
    adoConnProperties c' = Some cached ∧
    cached !! "DBMS Version" = Some (VStr "10.50.1600").
Proof.
  intros E w.
  destruct (proj2 (@ado_properties_cached w ado_connection eq_refl)
              _ eq_refl) as (c' & cached & Hc' & Hcached & _ & Hlast).
  exists c', cached. split; [exact Hc'|]. split; [exact Hcached|].
  apply (Hlast [("DBMS Version", VStr "09.00.4035");
                ("DBMS Name", VStr "Microsoft SQL Server")]
           "DBMS Version" (VStr "10.50.1600") []); [reflexivity|].
  apply not_elem_of_nil.
Defined.

End InitTwiceWitnesses.

(** ** The connection-parameter builder, further *)

Section BuilderFurther.
Import Samples.
Implicit Types (w : wrapper) (options params : gmap string value).

Lemma conn_params_display_options host name user password timeout options
    settings :
  let params :=
    conn_params_display host name user password timeout options settings in
  params !! "autocommit" = Some (dict_get options "autocommit" (VBool false)) ∧
  params !! "use_mars" = Some (dict_get options "use_mars" (VBool false)) ∧
  params !! "load_balancer" = Some (dict_get options "load_balancer" VNone) ∧
  params !! "use_tz"
    = Some (if truthy (dict_get settings "USE_TZ" (VBool false))
            then utc else VNone).
Proof.
  unfold conn_params_display, dict_of. cbn [foldl fst snd].
  repeat split; by simplify_map_eq.
Qed.

(** X8: whenever the builder returns, the [use_tz] parameter and the
    wrapper's [tzinfo_factory] agree: either the parameter is [utc] and
    the factory is [utc_tzinfo_factory], or both are [None]. *)
Theorem use_tz_matches_factory w params w' :
  get_connection_params_pytds w = (Ok params, w') →
  (params !! "use_tz" = Some utc ∧
   tzinfo_factory w' = Some (VObj "utc_tzinfo_factory")) ∨
  (params !! "use_tz" = Some VNone ∧ tzinfo_factory w' = Some VNone).
Proof.
  intros Hrun.
  destruct (builder_returned _ _ _ Hrun)
    as (options & host & name & user & password & use_tz
        & Ho & Hh & Hn & Hu & Hp & Ht & ->).
  rewrite (builder_runs w options host name user password use_tz) in Hrun
    by assumption.
  injection Hrun as <-.
  destruct (conn_params_display_options host name user password
              (command_timeout w) options (django_settings w))
    as (_ & _ & _ & ->).
  unfold dict_get. rewrite Ht. cbn [tzinfo_factory set_tzinfo_factory].
  destruct (truthy use_tz); eauto.
Qed.

Lemma use_tz_matches_factory_witness :
  tzinfo_factory (get_connection_params_pytds blank_wrapper).2
  = Some (VObj "utc_tzinfo_factory").
Proof.
  destruct (use_tz_matches_factory blank_wrapper
              (conn_params_display (VStr "") (VStr "") (VStr "") (VStr "")
                 (VInt 30) ∅ (dict_of [("USE_TZ", VBool true)]))
              (get_connection_params_pytds blank_wrapper).2 eq_refl)
    as [[_ Hfactory]|[Hparam _]].
  - exact Hfactory.
  - discriminate Hparam.
Defined.

(** X9: line 197 reads [USE_TZ] with a default, line 204 without one.
    When the Django settings have no [USE_TZ] and everything else is in
    place, the builder raises [AttributeError] and returns no
    parameters, leaving the wrapper as it was. *)
Theorem builder_needs_USE_TZ w options host name user password :
  dict_get (settings_dict w) "OPTIONS" (VDict ∅) = VDict options →
  settings_dict w !! "HOST" = Some host →
  settings_dict w !! "NAME" = Some name →
  settings_dict w !! "USER" = Some user →
  settings_dict w !! "PASSWORD" = Some password →
  django_settings w !! "USE_TZ" = None →
  get_connection_params_pytds w
  = (Raise (mk_exn AttributeError "USE_TZ"), w).
Proof.
  intros Ho Hh Hn Hu Hp Ht.
  unfold get_connection_params_pytds, as_dict, subscript, settings_attr.
  py_run. by rewrite Ho, Hh, Hn, Hu, Hp, Ht.
Qed.

Lemma builder_needs_USE_TZ_witness :
  get_connection_params_pytds (fresh_wrapper Pytds scenario_settings ∅)
  = (Raise (mk_exn AttributeError "USE_TZ"),
     fresh_wrapper Pytds scenario_settings ∅).
Proof.
  apply (builder_needs_USE_TZ (fresh_wrapper Pytds scenario_settings ∅)
           (dict_of [("failover_partner", VStr "db2");
                     ("bogus_key", VStr "z")])
           (VStr "db1") (VStr "orders") (VStr "svc") (VStr "x"));
    reflexivity.
Defined.

(** X10: the four parameters that come from OPTIONS carry the option's
    value when the key is there and the default otherwise ([False] for
    autocommit and use_mars, [None] for load_balancer and
    failover_partner); settings without an OPTIONS key give the four
    defaults. *)
Theorem options_forwarded_with_defaults w params w' :
  get_connection_params_pytds w = (Ok params, w') →
  (∀ options,
     dict_get (settings_dict w) "OPTIONS" (VDict ∅) = VDict options →
     params !! "autocommit"
       = Some (dict_get options "autocommit" (VBool false)) ∧
     params !! "use_mars" = Some (dict_get options "use_mars" (VBool false)) ∧
     params !! "load_balancer"
       = Some (dict_get options "load_balancer" VNone) ∧
     params !! "failover_partner"
       = Some (dict_get options "failover_partner" VNone)) ∧
  (settings_dict w !! "OPTIONS" = None →
   params !! "autocommit" = Some (VBool false) ∧
   params !! "use_mars" = Some (VBool false) ∧
   params !! "load_balancer" = Some VNone ∧
   params !! "failover_partner" = Some VNone).
Proof.
  intros Hrun.
  destruct (builder_returned _ _ _ Hrun)
    as (options & host & name & user & password & use_tz
        & Ho & _ & _ & _ & _ & _ & ->).
  destruct (conn_params_display_options host name user password
              (command_timeout w) options (django_settings w))
    as (Ha & Hm & Hl & _).
  destruct (conn_params_display_lookup host name user password
              (command_timeout w) options (django_settings w))
    as (_ & _ & _ & _ & _ & Hf).
  split.
  - intros options' Ho'. rewrite Ho in Ho'. by injection Ho' as <-.
  - intros Hnone. unfold dict_get in Ho. rewrite Hnone in Ho.
    injection Ho as <-. by rewrite Ha, Hm, Hl, Hf.
Qed.

Lemma options_forwarded_with_defaults_witness :
  ∃ params,
    (get_connection_params_pytds bare_wrapper).1 = Ok params ∧
    params !! "autocommit" = Some (VBool false) ∧
    params !! "failover_partner" = Some VNone.
Proof.
  eexists. split; [reflexivity|].
  destruct (proj2 (options_forwarded_with_defaults bare_wrapper _ _
                     (surjective_pairing _)) eq_refl)
    as (Ha & _ & _ & Hf).
  split; [exact Ha|exact Hf].
Defined.

(** X11: the keys are read in the order HOST, NAME, USER, PASSWORD, and
    the [KeyError] names the first one that is missing; the wrapper is
    left as it was. *)
Theorem builder_reports_first_missing_key w options before key after :
  dict_get (settings_dict w) "OPTIONS" (VDict ∅) = VDict options →
  ["HOST"; "NAME"; "USER"; "PASSWORD"] = before ++ key :: after →
  (∀ k, k ∈ before → is_Some (settings_dict w !! k)) →
  settings_dict w !! key = None →
  get_connection_params_pytds w = (Raise (mk_exn KeyError key), w).
Proof.
  intros Ho Hkeys Hbefore Hmissing.
  unfold get_connection_params_pytds, as_dict, subscript. py_run.
  rewrite Ho.
  destruct before as [|k1 [|k2 [|k3 [|k4 before]]]]; simplify_eq/=.
  - by rewrite Hmissing.
  - destruct (Hbefore "HOST") as [? ->]; [set_solver|].
    by rewrite Hmissing.
  - destruct (Hbefore "HOST") as [? ->]; [set_solver|].
    destruct (Hbefore "NAME") as [? ->]; [set_solver|].
    by rewrite Hmissing.
  - destruct (Hbefore "HOST") as [? ->]; [set_solver|].
    destruct (Hbefore "NAME") as [? ->]; [set_solver|].
    destruct (Hbefore "USER") as [? ->]; [set_solver|].
    by rewrite Hmissing.
  - by destruct before.
Qed.

End BuilderFurther.

Section BuilderFurtherWitnesses.
Import Samples.

Lemma builder_reports_first_missing_key_witness :
  get_connection_params_pytds nameless_wrapper
  = (Raise (mk_exn KeyError "NAME"), nameless_wrapper).
Proof.
  apply (builder_reports_first_missing_key nameless_wrapper ∅
           ["HOST"] "NAME" ["USER"; "PASSWORD"]); try reflexivity.
  intros k Hk. apply list_elem_of_singleton in Hk as ->.
  eexists. reflexivity.
Defined.

End BuilderFurtherWitnesses.

(** ** Opening a connection and making a cursor *)

Section Opening.
Import Rest.
Context `{Collaborators}.
Implicit Types (w : wrapper) (s : session) (params : gmap string value).

(** X12: the parameters the pytds builder returns never hold a
    connection string, so [get_new_connection] called with them records
    the empty string, hands the driver exactly these parameters and ends
    as the driver's [connect] does, the wrapper's own state untouched. *)
Theorem pytds_connection_string_is_empty w params w' s :
  get_connection_params_pytds w = (Ok params, w') →
  params !! "connection_string" = None ∧
  (get_new_connection params s).1
  = driver_connect (Database (self s)) params ∧
  _connection_string (get_new_connection params s).2 = Some (VStr "") ∧
  self (get_new_connection params s).2 = self s.
Proof.
  intros Hrun.
  destruct (builder_returned _ _ _ Hrun)
    as (options & host & name & user & password & use_tz
        & _ & _ & _ & _ & _ & _ & ->).
  assert (conn_params_display host name user password (command_timeout w)
            options (django_settings w) !! "connection_string" = None)
    as Hnone.
  { apply not_elem_of_dom. rewrite conn_params_display_dom.
    unfold conn_param_keys. set_solver. }
  split; [exact Hnone|].
  unfold get_new_connection. py_run. unfold dict_get. rewrite Hnone.
  by destruct (driver_connect _ _).
Qed.

(** X13: a cursor made after the builder has run carries the builder's
    timezone factory, [utc_tzinfo_factory] exactly when
    [settings.USE_TZ] is true, wraps the connection's own cursor and
    uses the wrapper's [wrap_database_errors]; making it changes nothing
    in the wrapper, and a failure of [connection.cursor()] is passed on
    as it is. *)
Theorem cursor_carries_builder_factory w params w1 use_tz w2 c :
  get_connection_params_pytds w = (Ok params, w1) →
  django_settings w !! "USE_TZ" = Some use_tz →
  tzinfo_factory w2 = tzinfo_factory w1 →
  connection w2 = Some c →
  (∀ cur, cursor c = Ok cur →
     ∃ cw,
       create_cursor_pytds w2 = (Ok cw, w2) ∧
       cur_handle (CursorWrapper._cursor cw) = cur ∧
       CursorWrapper._error_wrapper cw = wrap_database_errors ∧
       cur_attrs (CursorWrapper._cursor cw) !! "tzinfo_factory"
       = Some (if truthy use_tz then VObj "utc_tzinfo_factory" else VNone)) ∧
  (∀ e, cursor c = Raise e → create_cursor_pytds w2 = (Raise e, w2)).
Proof.
  intros Hrun Ht Htz Hc.
  destruct (builder_returned _ _ _ Hrun)
    as (options & host & name & user & password & use_tz'
        & Ho & Hh & Hn & Hu & Hp & Ht' & ->).
  rewrite Ht in Ht'. injection Ht' as <-.
  rewrite (builder_runs w options host name user password use_tz) in Hrun
    by assumption.
  injection Hrun as <-. cbn [tzinfo_factory set_tzinfo_factory] in Htz.
  split.
  - intros cur Hcur. unfold create_cursor_pytds. py_run.
    rewrite Hc, Hcur, Htz. eexists. split; [reflexivity|].
    cbn [CursorWrapper._cursor CursorWrapper._error_wrapper cur_handle
         cur_attrs].
    split; [reflexivity|]. split; [reflexivity|]. apply lookup_insert_eq.
  - intros e Hcur. unfold create_cursor_pytds. py_run.
    by rewrite Hc, Hcur.
Qed.

(** X14: the optional imports of lines 36-44 never fail the import of
    the module.  When [sqlserver_ado.schema] is missing, the failure
    shows only when [schema_editor] is called, as a [TypeError]; when it
    is there, [schema_editor] is the class's constructor.  The zoneinfo
    flag is [True] exactly when [pytz] imports. *)
Theorem schema_editor_needs_schema_module env g0 :
  ∃ g,
    optional_imports env g0 = (Ok tt, g) ∧
    has_zoneinfo_database g = has_pytz env ∧
    (has_schema env = false →
     ∀ w args,
       schema_editor g args w
       = (Raise (mk_exn TypeError "'NoneType' object is not callable"), w)) ∧
    (has_schema env = true →
     ∀ w args, schema_editor g args w = (new_schema_editor w args, w)).
Proof.
  destruct env as [[] []]; eexists; (split; [reflexivity|]);
    (split; [reflexivity|]); split; intros Hs w args;
    try discriminate Hs; reflexivity.
Qed.

(** X15: [is_ip_address] answers [True] when the validator accepts and
    [False] when it raises [ValidationError] (or a subclass); it never
    raises [ValidationError] itself, and any other exception of the
    validator passes through unchanged. *)
Theorem is_ip_address_cases v :
  (validate_ipv46_address v = Ok tt → is_ip_address v = Ok true) ∧
  (∀ e, validate_ipv46_address v = Raise e →
        isinstance e ValidationError = true →
        is_ip_address v = Ok false) ∧
  (∀ e, is_ip_address v = Raise e →
        validate_ipv46_address v = Raise e ∧
        isinstance e ValidationError = false).
Proof.
  unfold is_ip_address, try_except_else. py_run.
  destruct (validate_ipv46_address v) as [[]|e0]; cbn [existsb fst].
  - done.
  - rewrite orb_false_r. split; [done|]. split.
    + intros e [= ->] ->. done.
    + intros e. destruct (isinstance e0 ValidationError) eqn:Hcls;
        cbn [fst]; [done|]. by intros [= ->].
Qed.

End Opening.

(** X16: after a successful import the four pytds implementations are
    installed on every wrapper exactly when pytds is importable, all four
    together, whether or not ado is available too; otherwise all four
    stay those of the base class. *)
Theorem pytds_methods_iff_importable env g :
  Transport.module_init env Transport.unbound = (Ok tt, g) →
  (Transport.has_pytds env = true →
   Rest.bind_methods g
   = {| Rest.m_get_connection_params := Rest.OfPytds;
        Rest.m_create_cursor := Rest.OfPytds;
        Rest.m_get_dbms_version := Rest.OfPytds;
        Rest.m_set_autocommit := Rest.OfPytds |}) ∧
  (Transport.has_pytds env = false →
   Rest.bind_methods g = Rest.base_methods).
Proof.
  destruct env as [[] [] []]; cbv; intros [= <-]; split;
    first [discriminate | reflexivity | intros _; reflexivity].
Qed.

Section OpeningWitnesses.
Import Samples Rest.

Lemma pytds_connection_string_is_empty_witness :
  let s := {| self := scenario_wrapper; _connection_string := None |} in
  ∃ params,
    (get_connection_params_pytds scenario_wrapper).1 = Ok params ∧
    _connection_string
      (@get_new_connection sample_collaborators params s).2
    = Some (VStr "").
Proof.
  intros s. eexists. split; [reflexivity|].
  exact (proj1 (proj2 (proj2
           (@pytds_connection_string_is_empty sample_collaborators
              scenario_wrapper _ _ s (surjective_pairing _))))).
Defined.

Lemma cursor_carries_builder_factory_witness :
  let w1 := (get_connection_params_pytds blank_wrapper).2 in
  let conn := pytds_connection 0x0A320000 (Ok good_cursor) in
  ∃ cw,
    @create_cursor_pytds sample_collaborators (set_connection (Some conn) w1)
    = (Ok cw, set_connection (Some conn) w1) ∧
    cur_attrs (CursorWrapper._cursor cw) !! "tzinfo_factory"
    = Some (VObj "utc_tzinfo_factory").
Proof.
  intros w1 conn.
  destruct (proj1 (@cursor_carries_builder_factory sample_collaborators
                     blank_wrapper _ w1 (VBool true)
                     (set_connection (Some conn) w1) conn
                     (surjective_pairing _) eq_refl eq_refl eq_refl)
              good_cursor eq_refl)
    as (cw & Hmade & _ & _ & Hattr).
  exists cw. split; [exact Hmade|exact Hattr].
Defined.

Lemma schema_editor_needs_schema_module_witness :
  ∃ g,
    optional_imports {| has_schema := false; has_pytz := true |}
      {| DatabaseSchemaEditor := None; pytz := None |} = (Ok tt, g) ∧
    has_zoneinfo_database g = true ∧
    (@schema_editor sample_collaborators g [] scenario_wrapper).1
    = Raise (mk_exn TypeError "'NoneType' object is not callable").
Proof.
  destruct (@schema_editor_needs_schema_module sample_collaborators
              {| has_schema := false; has_pytz := true |}
              {| DatabaseSchemaEditor := None; pytz := None |})
    as (g & Himport & Hzone & Hmissing & _).
  exists g. split; [exact Himport|]. split; [exact Hzone|].
  by rewrite (Hmissing eq_refl scenario_wrapper []).
Defined.

Lemma is_ip_address_cases_witness :
  @is_ip_address sample_collaborators (VStr "127.0.0.1") = Ok true ∧
  @is_ip_address sample_collaborators (VStr "db1") = Ok false.
Proof.
  split.
  - apply (proj1 (@is_ip_address_cases sample_collaborators
                    (VStr "127.0.0.1"))). reflexivity.
  - apply (proj1 (proj2 (@is_ip_address_cases sample_collaborators
                           (VStr "db1")))
             (mk_exn ValidationError "Enter a valid IP address."));
      reflexivity.
Defined.

Lemma pytds_methods_iff_importable_witness :
  let env := {| Transport.has_ado_dbapi := true;
                Transport.has_pythoncom := true;
                Transport.has_pytds := true |} in
  m_create_cursor
    (bind_methods (Transport.module_init env Transport.unbound).2)
  = OfPytds.
Proof.
  intros env.
  exact (f_equal m_create_cursor
           (proj1 (pytds_methods_iff_importable env
                     (Transport.module_init env Transport.unbound).2
                     eq_refl) eq_refl)).
Defined.

End OpeningWitnesses.

(** ** The usability check, further *)

Section UsabilityFurther.
Import Samples.
Implicit Types (w : wrapper).

(** X17: the ways [is_usable] answers [False] besides a failing query:
    no connection at all, a failing [connection.cursor()], a failing
    [__enter__], and a failing [__exit__] after a query that succeeded.
    And the one way it answers [True] after a failing query: a cursor
    whose [__exit__] swallows the exception. *)
Theorem is_usable_edge_cases w :
  (connection w = None → is_usable w = (Ok false, w)) ∧
  (∀ c e, connection w = Some c → cursor c = Raise e →
          is_usable w = (Ok false, w)) ∧
  (∀ c cur,
     connection w = Some c → cursor c = Ok cur →
     (∀ e, cm_enter (cur_manager cur) = Raise e →
           is_usable w = (Ok false, w)) ∧
     (∀ e, cm_enter (cur_manager cur) = Ok tt →
           cur_execute cur "SELECT 1" = Ok tt →
           cm_exit (cur_manager cur) None = Raise e →
           is_usable w = (Ok false, w)) ∧
     (∀ e, cm_enter (cur_manager cur) = Ok tt →
           cur_execute cur "SELECT 1" = Raise e →
           cm_exit (cur_manager cur) (Some e) = Ok true →
           is_usable w = (Ok true, w))).
Proof.
  rewrite is_usable_by_round_trip. unfold round_trip, with_. py_run.
  split; [by intros ->|]. split; [by intros c e -> ->|].
  intros c cur -> ->. split; [by intros e ->|].
  split; intros e -> -> Hexit; cbn [with_exit fst]; by rewrite Hexit.
Qed.

Lemma is_usable_edge_cases_witness :
  is_usable scenario_wrapper = (Ok false, scenario_wrapper) ∧
  is_usable (connected_wrapper 0x0A320000 (Ok swallowing_cursor))
  = (Ok true, connected_wrapper 0x0A320000 (Ok swallowing_cursor)).
Proof.
  split.
  - apply (proj1 (is_usable_edge_cases scenario_wrapper)). reflexivity.
  - apply (proj2 (proj2 (proj2 (proj2
             (is_usable_edge_cases
                (connected_wrapper 0x0A320000 (Ok swallowing_cursor))))
             (pytds_connection 0x0A320000 (Ok swallowing_cursor))
             swallowing_cursor eq_refl eq_refl)) driver_error);
      reflexivity.
Defined.

End UsabilityFurther.

(** ** The cursor wrapper, further *)

Module CursorWrapperFurther.
Import CursorWrapper CursorWrapperFacts.

Section Further.
Context {C Row : Type} `{RawCursor C Row}.
Implicit Types (w : _CursorWrapper (C := C)) (c : C) (n : nat).

(** X19: an iteration over the wrapper ends once.  When the error
    wrapper's [__enter__] raises, the consumer gets that exception and no
    row is pulled from the cursor.  Otherwise, once the consumer has
    seen the end or an exception, the generator is finished: asking
    again gives [StopIteration] and touches neither the cursor nor the
    error wrapper. *)
Theorem iteration_ends_once w :
  (∀ e m,
     cm_enter (_error_wrapper w) = Raise e →
     consume next (S m) (__iter__ w)
     = ([], Failed e, {| gen_at := Finished; gen_self := w |})) ∧
  (cm_enter (_error_wrapper w) = Ok tt →
   ∀ n rows e g,
     consume next n (__iter__ w) = (rows, e, g) →
     e ≠ Pending →
     gen_at g = Finished ∧
     ∀ m, consume next (S m) g = ([], Exhausted, g)).
Proof.
  split.
  - intros e m Henter. cbn [consume]. unfold next, __iter__.
    cbn [gen_at gen_self]. by rewrite Henter.
  - intros Henter n rows e g Hrun Hend.
    destruct w as [c ew]. cbn [_error_wrapper] in Henter.
    destruct (consume raw_next n c) as [[rows0 e0] c'] eqn:Hraw.
    destruct (consume_through_wrapper ew n Created c rows0 e0 c')
      as (pos' & Hgen & Hfin); [done..|].
    unfold __iter__ in Hrun. rewrite Hgen in Hrun.
    injection Hrun as <- <- <-.
    assert (e0 ≠ Pending) as He0 by (by intros ->).
    rewrite (Hfin He0). split; [reflexivity|]. intros m. reflexivity.
Qed.

(** X20: the wrapper's [execute] works on the very cursor the wrapper
    iterates over: the rows a consumer gets from the wrapper after an
    [execute] through it are those the raw cursor yields after the raw
    [execute], with the error wrapper's verdict on the way they end. *)
Theorem execute_then_iterate w sql params n rows e c' :
  cm_enter (_error_wrapper w) = Ok tt →
  consume raw_next n (raw_execute sql params (_cursor w)).2 = (rows, e, c') →
  ∃ pos',
    consume next n (__iter__ (execute sql params w).2)
    = (rows, through_wrapper (_error_wrapper w) e,
       {| gen_at := pos'; gen_self := set_cursor c' w |}).
Proof.
  intros Henter Hraw.
  destruct (on_cursor_outcome (raw_execute sql params) w)
    as (_ & Hcur & Hew).
  fold (execute sql params) in Hcur, Hew.
  destruct (execute sql params w).2 as [c1 ew1]. destruct w as [c ew].
  cbn [_cursor _error_wrapper] in *. subst c1 ew1.
  destruct (consume_through_wrapper ew n Created
              (raw_execute sql params c).2 rows e c')
    as (pos' & Hgen & _); [done..|].
  by exists pos'.
Qed.

End Further.

Lemma iteration_ends_once_witness :
  ∃ g,
    consume next 5 (__iter__ Samples.sample_cursor_wrapper)
    = ([1; 2], Failed (mk_exn DjangoInterfaceError "connection reset"), g) ∧
    consume next 3 g = ([], Exhausted, g).
Proof.
  exists (consume next 5 (__iter__ Samples.sample_cursor_wrapper)).2.
  split; [reflexivity|].
  refine (proj2 (proj2 (iteration_ends_once Samples.sample_cursor_wrapper)
                   eq_refl 5%nat [1; 2]
                   (Failed (mk_exn DjangoInterfaceError "connection reset"))
                   (consume next 5
                      (__iter__ Samples.sample_cursor_wrapper)).2
                   _ _) 2%nat).
  - reflexivity.
  - discriminate.
Defined.

Lemma execute_then_iterate_witness :
  ∃ pos',
    consume next 2
      (__iter__ (execute "SELECT id FROM t" []
                   Samples.sample_cursor_wrapper).2)
    = ([1; 2], Pending,
       {| gen_at := pos';
          gen_self := set_cursor [Raise Samples.driver_error]
                        Samples.sample_cursor_wrapper |}).
Proof.
  exact (execute_then_iterate Samples.sample_cursor_wrapper
           "SELECT id FROM t" [] 2%nat [1; 2] Pending
           [Raise Samples.driver_error] eq_refl eq_refl).
Defined.

End CursorWrapperFurther.
